(** * DP564 remote control: discovery, frame codec and session loop

    A shallow embedding of the ESP32 sketch (the auto-discovery controller):
    the vendor address filter [isDolbyMac], the subnet sweep
    [scanForDolbyDevice], the outbound commands [setVolume], [setDim],
    [setSource], the keep-alive [sendHeartbeat], the inbound dispatcher
    [processIncomingPackets], the operator command parser
    [handleUserCommand] and the polling tick [loop].

    Conventions of the embedding.
    - A [byte]/[uint8_t] is a [Z] in [0, 256); [unsigned long] is a [Z]
      taken modulo [2^32].
    - A finite [float] is the rational number it denotes.  The sketch only
      multiplies a float by 2, compares it with 0.0 and -95.0, truncates it
      with an [(int)] cast and halves a small integer; all of these are
      exact in binary floating point, so [Q] arithmetic agrees with them.
      NaN and the infinities are outside the model.
    - The sketch's global variables, the state of the TCP client and the
      log of effects (socket calls, serial output) form one [State] that
      every operation threads through. *)

From Stdlib Require Import ZArith QArith Qround Bool String Ascii List Sorted Lia.
Import ListNotations.
Open Scope Z_scope.

(** ** Addresses *)

(** [uint8_t mac[6]]. *)
Record HardwareAddress := MkMac {
  mac0 : Z; mac1 : Z; mac2 : Z; mac3 : Z; mac4 : Z; mac5 : Z
}.

(** [mac[i]] for [i] in [0, 6). *)
Definition mac_at (mac : HardwareAddress) (i : nat) : Z :=
  match i with
  | 0%nat => mac0 mac
  | 1%nat => mac1 mac
  | 2%nat => mac2 mac
  | 3%nat => mac3 mac
  | 4%nat => mac4 mac
  | _ => mac5 mac
  end.

Definition is_octet (x : Z) : Prop := 0 <= x < 256.

Definition valid_mac (mac : HardwareAddress) : Prop :=
  is_octet (mac0 mac) /\ is_octet (mac1 mac) /\ is_octet (mac2 mac) /\
  is_octet (mac3 mac) /\ is_octet (mac4 mac) /\ is_octet (mac5 mac).

(** [IPAddress]: four octets, [ip[0]] first. *)
Record IPAddress := MkIp { ip0 : Z; ip1 : Z; ip2 : Z; ip3 : Z }.

(** [target[3] = i]. *)
Definition set_ip3 (ip : IPAddress) (i : Z) : IPAddress :=
  MkIp (ip0 ip) (ip1 ip) (ip2 ip) i.

(** [IPAddress::operator==]. *)
Definition ip_eqb (a b : IPAddress) : bool :=
  (ip0 a =? ip0 b) && (ip1 a =? ip1 b) && (ip2 a =? ip2 b) && (ip3 a =? ip3 b).

(** The address as one number, most significant octet first. *)
Definition ip_to_Z (ip : IPAddress) : Z :=
  ((ip0 ip * 256 + ip1 ip) * 256 + ip2 ip) * 256 + ip3 ip.

(** ** Protocol constants *)

Definition HANDSHAKE_MSG_1 : list Z := [0x00; 0x00; 0x00; 0x05].
Definition HANDSHAKE_MSG_2 : list Z := [0x03].
Definition PRE_CMD : list Z := [0x00; 0x00; 0x00; 0x0a].
Definition VOLUME_CMD_PREFIX : list Z := [0x02; 0x03; 0x12; 0x00; 0x00].
Definition DIM_CMD_PREFIX : list Z := [0x02; 0x05; 0x13; 0x00; 0x00].
Definition SOURCE_CMD_PREFIX : list Z := [0x02; 0x03; 0x01; 0x00; 0x00].
Definition VOLUME_DEVICE_UPDATE_PREFIX : list Z :=
  [0x00; 0x00; 0x00; 0x0b; 0x04; 0x03; 0x14; 0x01; 0x02; 0x00].
Definition VOLUME_ACK_PREFIX : list Z :=
  [0x00; 0x00; 0x00; 0x0b; 0x04; 0x03; 0x12; 0x01; 0x02; 0x00].
Definition DIM_ACK_PREFIX : list Z :=
  [0x00; 0x00; 0x00; 0x0b; 0x04; 0x05; 0x13; 0x01; 0x02; 0x00].
Definition SOURCE_ACK_PREFIX : list Z :=
  [0x00; 0x00; 0x00; 0x0b; 0x04; 0x03; 0x01; 0x01; 0x02; 0x00].
Definition HEARTBEAT_PACKET : list Z := [0x00; 0x00; 0x00; 0x05; 0x04].

Definition HEARTBEAT_INTERVAL : Z := 10000.
Definition TARGET_PORT : Z := 4444.

(** [sizeof] of a byte array. *)
Definition sizeof (a : list Z) : Z := Z.of_nat (length a).

(** Size of [rxBuffer]. *)
Definition RX_SIZE : nat := 256.

(** ** MAC matching helper *)

(** [isDolbyMac].  The nested tests of rules 3 to 5 ([if (A) { if (B) return
    true; }]) fall through to the next rule when either test fails, which
    is the conjunction written here. *)
Definition isDolbyMac (mac : HardwareAddress) : bool :=
  if (mac_at mac 0 =? 0x00) && (mac_at mac 1 =? 0x12) && (mac_at mac 2 =? 0xA6)
  then true
  else if (mac_at mac 0 =? 0x00) && (mac_at mac 1 =? 0xD0) && (mac_at mac 2 =? 0x46)
  then true
  else if ((mac_at mac 0 =? 0x70) && (mac_at mac 1 =? 0xB3) &&
           (mac_at mac 2 =? 0xD5) && (mac_at mac 3 =? 0x3F)) &&
          (Z.land (mac_at mac 4) 0xF0 =? 0x50)
  then true
  else if ((mac_at mac 0 =? 0x70) && (mac_at mac 1 =? 0xB3) &&
           (mac_at mac 2 =? 0xD5) && (mac_at mac 3 =? 0x73)) &&
          (Z.land (mac_at mac 4) 0xF0 =? 0xA0)
  then true
  else if ((mac_at mac 0 =? 0xD4) && (mac_at mac 1 =? 0x25) &&
           (mac_at mac 2 =? 0xCC)) &&
          (Z.land (mac_at mac 3) 0xF0 =? 0x80)
  then true
  else false.

(** *** The vendor rules as the specification words them

    A rule lists, for the leading octets of an address, a value and a mask;
    an address matches when each of its leading octets agrees with the
    value on every bit the mask selects. *)
Definition VendorPrefixRule : Type := list (Z * Z).

Definition exact (v : Z) : Z * Z := (v, 0xFF).
Definition upper_nibble (v : Z) : Z * Z := (v, 0xF0).

Definition vendor_rules : list VendorPrefixRule :=
  [ [exact 0x00; exact 0x12; exact 0xA6];
    [exact 0x00; exact 0xD0; exact 0x46];
    [exact 0x70; exact 0xB3; exact 0xD5; exact 0x3F; upper_nibble 0x50];
    [exact 0x70; exact 0xB3; exact 0xD5; exact 0x73; upper_nibble 0xA0];
    [exact 0xD4; exact 0x25; exact 0xCC; upper_nibble 0x80] ].

Definition octet_bits : list Z := [0; 1; 2; 3; 4; 5; 6; 7].

(** Octet [o] agrees with [v] on bit [j] whenever the mask selects [j]. *)
Definition bit_agrees (o v m j : Z) : bool :=
  implb (Z.testbit m j) (Bool.eqb (Z.testbit o j) (Z.testbit v j)).

Definition octet_agrees (o : Z) (vm : Z * Z) : bool :=
  forallb (bit_agrees o (fst vm) (snd vm)) octet_bits.

Fixpoint rule_matches_from (mac : HardwareAddress) (i : nat)
  (rule : VendorPrefixRule) : bool :=
  match rule with
  | [] => true
  | vm :: rest => octet_agrees (mac_at mac i) vm && rule_matches_from mac (S i) rest
  end.

Definition rule_matches (mac : HardwareAddress) (rule : VendorPrefixRule) : bool :=
  rule_matches_from mac 0 rule.

(** The address differs from the rule in an unmasked bit: some octet the
    rule covers has a bit selected by the mask that is not the rule's. *)
Definition differs_in_unmasked_bit (mac : HardwareAddress)
  (rule : VendorPrefixRule) : Prop :=
  exists (i : nat) (v m j : Z),
    nth_error rule i = Some (v, m) /\ 0 <= j < 8 /\
    Z.testbit m j = true /\
    Z.testbit (mac_at mac i) j <> Z.testbit v j.

(** ** Effects and state *)

(** The two TCP clients of the sketch. *)
Inductive socket := client | scanClient.

(** An argument of [Serial.printf]. *)
Inductive fmt_arg :=
| ArgFloat (x : Q)
| ArgInt (n : Z)
| ArgStr (s : string)
| ArgIp (ip : IPAddress)
| ArgMac (mac : HardwareAddress).

(** One observable effect of the sketch. *)
Inductive event :=
| Connect (c : socket) (ip : IPAddress) (port : Z)   (* c.connect(ip, port) *)
| Write (c : socket) (bytes : list Z)                (* c.write(...) *)
| Stop (c : socket)                                  (* c.stop() *)
| Delay (ms : Z)                                     (* delay(ms) *)
| Print (text : string)                              (* Serial.print / println *)
| Printf (fmt : string) (args : list fmt_arg).       (* Serial.printf *)

(** The global variables of the sketch, the state of [client]'s connection
    and the effects performed so far (oldest first). *)
Record State := MkState {
  dp564Ip : IPAddress;
  deviceFound : bool;
  lastHeartbeatTime : Z;
  currentVolume : Q;
  isDimmed : bool;
  currentSource : string;
  isConnected : bool;
  rxBuffer : list Z;
  link_up : bool;          (* what client.connected() answers *)
  inbound : list Z;        (* bytes received by client and not read yet *)
  trace : list event
}.

Definition set_dp564Ip (v : IPAddress) (s : State) : State :=
  MkState v (deviceFound s) (lastHeartbeatTime s) (currentVolume s) (isDimmed s)
    (currentSource s) (isConnected s) (rxBuffer s) (link_up s) (inbound s) (trace s).
Definition set_deviceFound (v : bool) (s : State) : State :=
  MkState (dp564Ip s) v (lastHeartbeatTime s) (currentVolume s) (isDimmed s)
    (currentSource s) (isConnected s) (rxBuffer s) (link_up s) (inbound s) (trace s).
Definition set_lastHeartbeatTime (v : Z) (s : State) : State :=
  MkState (dp564Ip s) (deviceFound s) v (currentVolume s) (isDimmed s)
    (currentSource s) (isConnected s) (rxBuffer s) (link_up s) (inbound s) (trace s).
Definition set_currentVolume (v : Q) (s : State) : State :=
  MkState (dp564Ip s) (deviceFound s) (lastHeartbeatTime s) v (isDimmed s)
    (currentSource s) (isConnected s) (rxBuffer s) (link_up s) (inbound s) (trace s).
Definition set_isDimmed (v : bool) (s : State) : State :=
  MkState (dp564Ip s) (deviceFound s) (lastHeartbeatTime s) (currentVolume s) v
    (currentSource s) (isConnected s) (rxBuffer s) (link_up s) (inbound s) (trace s).
Definition set_currentSource (v : string) (s : State) : State :=
  MkState (dp564Ip s) (deviceFound s) (lastHeartbeatTime s) (currentVolume s) (isDimmed s)
    v (isConnected s) (rxBuffer s) (link_up s) (inbound s) (trace s).
Definition set_isConnected (v : bool) (s : State) : State :=
  MkState (dp564Ip s) (deviceFound s) (lastHeartbeatTime s) (currentVolume s) (isDimmed s)
    (currentSource s) v (rxBuffer s) (link_up s) (inbound s) (trace s).
Definition set_rxBuffer (v : list Z) (s : State) : State :=
  MkState (dp564Ip s) (deviceFound s) (lastHeartbeatTime s) (currentVolume s) (isDimmed s)
    (currentSource s) (isConnected s) v (link_up s) (inbound s) (trace s).
Definition set_link_up (v : bool) (s : State) : State :=
  MkState (dp564Ip s) (deviceFound s) (lastHeartbeatTime s) (currentVolume s) (isDimmed s)
    (currentSource s) (isConnected s) (rxBuffer s) v (inbound s) (trace s).
Definition set_inbound (v : list Z) (s : State) : State :=
  MkState (dp564Ip s) (deviceFound s) (lastHeartbeatTime s) (currentVolume s) (isDimmed s)
    (currentSource s) (isConnected s) (rxBuffer s) (link_up s) v (trace s).
Definition set_trace (v : list event) (s : State) : State :=
  MkState (dp564Ip s) (deviceFound s) (lastHeartbeatTime s) (currentVolume s) (isDimmed s)
    (currentSource s) (isConnected s) (rxBuffer s) (link_up s) (inbound s) v.

(** Statements run in sequence: [s |> f |> g] is [f] then [g]. *)
Notation "s |> f" := (f s) (at level 45, left associativity, only parsing).

Definition emit (e : event) (s : State) : State := set_trace (trace s ++ [e]) s.

Definition Serial_println (text : string) : State -> State := emit (Print text).
Definition Serial_print (text : string) : State -> State := emit (Print text).
Definition Serial_printf (fmt : string) (args : list fmt_arg) : State -> State :=
  emit (Printf fmt args).
(** [Serial.println(ip)]: the address in dotted form. *)
Definition Serial_println_ip (ip : IPAddress) : State -> State :=
  emit (Printf "%s" [ArgIp ip]).
Definition delay (ms : Z) : State -> State := emit (Delay ms).

(** [client.write(buf, n)] and [client.write(b)]. *)
Definition client_write (bytes : list Z) : State -> State := emit (Write client bytes).

(** [client.stop()]: the connection is closed and unread input is dropped. *)
Definition client_stop (s : State) : State :=
  s |> set_link_up false |> set_inbound [] |> emit (Stop client).

(** The state at power-up: the initial values of the globals, a zeroed
    [rxBuffer], no connection and no effect yet. *)
Definition initial_state : State :=
  MkState (MkIp 0 0 0 0) false 0 0%Q false "aes1" false (repeat 0 RX_SIZE)
    false [] [].

(** The three fields the specification calls DeviceState. *)
Definition device_state (s : State) : Q * bool * string :=
  (currentVolume s, isDimmed s, currentSource s).

(** The byte arrays handed to [c.write], in order. *)
Fixpoint writes_of (c : socket) (t : list event) : list (list Z) :=
  match t with
  | [] => []
  | Write c' bytes :: rest =>
      match c, c' with
      | client, client | scanClient, scanClient => bytes :: writes_of c rest
      | _, _ => writes_of c rest
      end
  | _ :: rest => writes_of c rest
  end.

(** The addresses [c.connect] was called on, in order. *)
Fixpoint connects_of (c : socket) (t : list event) : list IPAddress :=
  match t with
  | [] => []
  | Connect c' ip _ :: rest =>
      match c, c' with
      | client, client | scanClient, scanClient => ip :: connects_of c rest
      | _, _ => connects_of c rest
      end
  | _ :: rest => connects_of c rest
  end.

(** The texts printed on the serial console, in order ([printf] by its
    format). *)
Fixpoint prints_of (t : list event) : list string :=
  match t with
  | [] => []
  | Print text :: rest => text :: prints_of rest
  | Printf fmt _ :: rest => fmt :: prints_of rest
  | _ :: rest => prints_of rest
  end.

(** ** Numbers *)

(** [unsigned long] arithmetic on the ESP32 is modulo [2^32]. *)
Definition wrap32 (x : Z) : Z := x mod 2 ^ 32.

(** The [(byte)] cast of an [int]. *)
Definition to_byte (x : Z) : Z := x mod 256.

(** The [(int)] cast of a float: truncation toward zero. *)
Definition Qtrunc (x : Q) : Z := Z.quot (Qnum x) (Z.pos (Qden x)).

Definition Qltb (x y : Q) : bool := negb (Qle_bool y x).

(** [round] of the specification's formula: to the nearest integer, halves
    away from zero. *)
Definition Qround_nearest (x : Q) : Z :=
  if Qle_bool 0 x then Qfloor (x + (1 # 2)) else Qceiling (x - (1 # 2)).

(** The volume conversions as the specification states them. *)
Definition encode_spec (v : Q) : Z := Qround_nearest (192 + v * 2).
Definition decode_spec (b : Z) : Q := (inject_Z (b - 192) / 2)%Q.

(** The dB values the appliance can represent: [k / 2] for an integer [k]
    with [-190 <= k <= 0]. *)
Definition half_dB (k : Z) : Q := (inject_Z k / 2)%Q.

(** ** Arduino [String] operations used by the sketch *)

(** C's [isspace]: space and the control characters 9 to 13. *)
Definition isspace (c : ascii) : bool :=
  let n := nat_of_ascii c in
  (n =? 32)%nat || ((9 <=? n)%nat && (n <=? 13)%nat).

Fixpoint trim_left (s : string) : string :=
  match s with
  | EmptyString => EmptyString
  | String c r => if isspace c then trim_left r else s
  end.

Fixpoint trim_right (s : string) : string :=
  match s with
  | EmptyString => EmptyString
  | String c r =>
      let r' := trim_right r in
      if isspace c && String.eqb r' EmptyString then EmptyString else String c r'
  end.

(** [String::trim]. *)
Definition trim (s : string) : string := trim_right (trim_left s).

Fixpoint indexOf_from (c : ascii) (s : string) (i : Z) : Z :=
  match s with
  | EmptyString => -1
  | String d r => if Ascii.eqb d c then i else indexOf_from c r (i + 1)
  end.

(** [String::indexOf(c)]: the first position of [c], or -1. *)
Definition indexOf (c : ascii) (s : string) : Z := indexOf_from c s 0.

(** [String::substring(from, to)] for [0 <= from <= to]. *)
Definition substring_to (s : string) (from to : Z) : string :=
  String.substring (Z.to_nat from) (Z.to_nat (to - from)) s.

(** [String::substring(from)]: up to the end of the string. *)
Definition substring_from (s : string) (from : Z) : string :=
  String.substring (Z.to_nat from) (String.length s - Z.to_nat from) s.

Definition lower_char (c : ascii) : ascii :=
  let n := nat_of_ascii c in
  if (65 <=? n)%nat && (n <=? 90)%nat then ascii_of_nat (n + 32) else c.

(** [String::toLowerCase]. *)
Fixpoint toLowerCase (s : string) : string :=
  match s with
  | EmptyString => EmptyString
  | String c r => String (lower_char c) (toLowerCase r)
  end.

(** *** A decimal reading of [String::toFloat]

    [String::toFloat] belongs to the Arduino core, not to the sketch; the
    sketch is parameterised on it below.  This instance reads optional
    white space, an optional sign, digits and an optional fraction, and
    answers 0 when no digit is found, as the library documents for text
    that is no number. *)
Definition digit_of (c : ascii) : option Z :=
  let n := nat_of_ascii c in
  if (48 <=? n)%nat && (n <=? 57)%nat then Some (Z.of_nat (n - 48)) else None.

(** Reads the digits at the head of [s]: their value after [acc], their
    number after [count], and the rest of the text. *)
Fixpoint read_digits (s : string) (acc : Z) (count : nat) : Z * nat * string :=
  match s with
  | EmptyString => (acc, count, s)
  | String c r =>
      match digit_of c with
      | Some d => read_digits r (acc * 10 + d) (S count)
      | None => (acc, count, s)
      end
  end.

Definition decimal_toFloat (text : string) : Q :=
  let s := trim_left text in
  let '(negative, s) :=
    match s with
    | String "-"%char r => (true, r)
    | String "+"%char r => (false, r)
    | _ => (false, s)
    end in
  let '(whole, n1, rest) := read_digits s 0 0 in
  let '(frac, n2, _) :=
    match rest with
    | String "."%char r => read_digits r 0 0
    | _ => (0, 0%nat, rest)
    end in
  if (n1 + n2 =? 0)%nat then 0%Q
  else
    let magnitude := (inject_Z whole + inject_Z frac / inject_Z (10 ^ Z.of_nat n2))%Q in
    if negative then (- magnitude)%Q else magnitude.

(** ** Outbound commands *)

(** [setVolume]. *)
Definition setVolume (db : Q) (s : State) : State :=
  if Qltb 0 db || Qltb db (-95) then
    s |> Serial_println "Error: Volume must be between -95.0 and 0.0"
  else
    let val := 192 + Qtrunc (db * 2) in
    let payload := to_byte val in
    s |> Serial_printf "Sending Volume: %.1f dB\n" [ArgFloat db]
      |> client_write PRE_CMD
      |> delay 100
      |> client_write VOLUME_CMD_PREFIX
      |> client_write [payload].

(** [setDim]. *)
Definition setDim (state : bool) (s : State) : State :=
  let payload := if state then 0x01 else 0x00 in
  s |> client_write PRE_CMD
    |> delay 100
    |> client_write DIM_CMD_PREFIX
    |> client_write [payload].

(** The payload [setSource] selects for a lower-cased name. *)
Definition source_payload (src : string) : option Z :=
  if String.eqb src "aes1" then Some 0x00
  else if String.eqb src "aes2" then Some 0x01
  else if String.eqb src "optical" then Some 0x02
  else if String.eqb src "streaming" then Some 0x03
  else None.

(** [setSource]. *)
Definition setSource (src : string) (s : State) : State :=
  match source_payload (toLowerCase src) with
  | Some payload =>
      s |> client_write PRE_CMD
        |> delay 100
        |> client_write SOURCE_CMD_PREFIX
        |> client_write [payload]
  | None => s |> Serial_println "Invalid source."
  end.

(** [sendHeartbeat]. *)
Definition sendHeartbeat (s : State) : State :=
  if link_up s then s |> client_write HEARTBEAT_PACKET else s.

Definition printHelp : State -> State :=
  Serial_println "Cmds: volume <db>, dim <on/off>, source <name>, status".

(** ** Inbound frames *)

(** [memcmp(buf, pat, sizeof(pat)) == 0]. *)
Fixpoint memcmp_eq (buf pat : list Z) : bool :=
  match pat with
  | [] => true
  | p :: pat' =>
      match buf with
      | [] => false
      | b :: buf' => (b =? p) && memcmp_eq buf' pat'
      end
  end.

(** [client.read(rxBuffer, sizeof(rxBuffer))] stores the bytes read at the
    start of the buffer and leaves the rest of it as it was. *)
Definition read_into (buf chunk : list Z) : list Z :=
  chunk ++ skipn (length chunk) buf.

(** [rxBuffer[len - 1]]. *)
Definition last_byte (buf : list Z) (len : Z) : Z :=
  nth (Z.to_nat (len - 1)) buf 0.

(** [(b - 192) / 2.0]. *)
Definition volume_of_byte (b : Z) : Q := (inject_Z (b - 192) / 2)%Q.

(** The branch [processIncomingPackets] takes on a buffer holding [len]
    fresh bytes. *)
Inductive FrameKind :=
| Heartbeat
| VolumeUnsolicitedUpdate
| VolumeAck
| DimAck
| SourceAck
| Unrecognized.

Definition classify (buf : list Z) (len : Z) : FrameKind :=
  if memcmp_eq buf HEARTBEAT_PACKET then Heartbeat
  else if (len >? sizeof VOLUME_DEVICE_UPDATE_PREFIX) &&
          memcmp_eq buf VOLUME_DEVICE_UPDATE_PREFIX then VolumeUnsolicitedUpdate
  else if (len >? sizeof VOLUME_ACK_PREFIX) &&
          memcmp_eq buf VOLUME_ACK_PREFIX then VolumeAck
  else if (len >? sizeof DIM_ACK_PREFIX) &&
          memcmp_eq buf DIM_ACK_PREFIX then DimAck
  else if (len >? sizeof SOURCE_ACK_PREFIX) &&
          memcmp_eq buf SOURCE_ACK_PREFIX then SourceAck
  else Unrecognized.

(** The source name a Source ACK value selects; other values leave
    [currentSource] as it is. *)
Definition source_after (val : Z) (current : string) : string :=
  let c := if val =? 0x00 then "aes1"%string else current in
  let c := if val =? 0x01 then "aes2"%string else c in
  let c := if val =? 0x02 then "optical"%string else c in
  if val =? 0x03 then "streaming"%string else c.

(** The body of the branch taken for a value-carrying frame. *)
Definition apply_frame (kind : FrameKind) (len : Z) (s : State) : State :=
  let b := last_byte (rxBuffer s) len in
  match kind with
  | VolumeUnsolicitedUpdate =>
      s |> set_currentVolume (volume_of_byte b)
        |> Serial_printf "\n[Device] Vol: %.1f dB\n" [ArgFloat (volume_of_byte b)]
  | VolumeAck =>
      s |> set_currentVolume (volume_of_byte b)
        |> Serial_printf "[ACK] Vol: %.1f dB\n" [ArgFloat (volume_of_byte b)]
  | DimAck =>
      s |> set_isDimmed (b =? 0x01)
        |> Serial_printf "[ACK] Dim: %s\n" [ArgStr (if b =? 0x01 then "ON" else "OFF")]
  | SourceAck =>
      s |> set_currentSource (source_after b (currentSource s))
        |> Serial_printf "[ACK] Src: %s\n" [ArgStr (source_after b (currentSource s))]
  | Heartbeat | Unrecognized => s
  end.

(** One [client.read]: up to [RX_SIZE] pending bytes move into [rxBuffer];
    the answer is the state after the read and the number of bytes read. *)
Definition client_read (s : State) : State * Z :=
  let chunk := firstn RX_SIZE (inbound s) in
  (s |> set_inbound (skipn RX_SIZE (inbound s))
     |> set_rxBuffer (read_into (rxBuffer s) chunk),
   Z.of_nat (length chunk)).

(** [client.available()] as a truth value. *)
Definition client_available (s : State) : bool :=
  match inbound s with [] => false | _ :: _ => true end.

(** The [while] loop of [processIncomingPackets]; every iteration that
    goes on has read at least one byte, so [fuel] bounds the iterations
    as soon as it is the number of pending bytes. *)
Fixpoint drain (fuel : nat) (s : State) : State :=
  match fuel with
  | O => s
  | S fuel' =>
      if client_available s then
        let '(s1, len) := client_read s in
        if len <=? 0 then s1
        else
          match classify (rxBuffer s1) len with
          | Heartbeat => s1                                   (* return *)
          | kind => drain fuel' (apply_frame kind len s1)
          end
      else s
  end.

(** [processIncomingPackets]. *)
Definition processIncomingPackets (s : State) : State :=
  drain (length (inbound s)) s.

(** ** Operator commands and the polling tick *)

(** What the environment supplies to one run of [loop]: the two readings
    of [millis()] and the line waiting on the serial port, if any. *)
Record TickInput := MkTick {
  millis_check : Z;             (* millis() in the interval test *)
  millis_reset : Z;             (* millis() stored after the heartbeat *)
  serial_line : option string   (* Serial.readStringUntil('\n') *)
}.

Section Sketch.

(** [String::toFloat] of the Arduino core. *)
Variable toFloat : string -> Q.

(** [handleUserCommand]. *)
Definition handleUserCommand (cmdLine : string) (s : State) : State :=
  let spaceIndex := indexOf " "%char cmdLine in
  let cmd := if spaceIndex =? -1 then cmdLine else substring_to cmdLine 0 spaceIndex in
  let arg := if spaceIndex =? -1 then EmptyString
             else substring_from cmdLine (spaceIndex + 1) in
  let cmd := toLowerCase cmd in
  if String.eqb cmd "volume" then setVolume (toFloat arg) s
  else if String.eqb cmd "dim" then
    if String.eqb arg "on" then setDim true s else setDim false s
  else if String.eqb cmd "source" then setSource arg s
  else if String.eqb cmd "status" then
    s |> Serial_printf "Vol: %.1f dB | Src: %s | Dim: %s\n"
           [ArgFloat (currentVolume s); ArgStr (currentSource s);
            ArgStr (if isDimmed s then "ON" else "OFF")]
  else printHelp s.

(** The heartbeat step of [loop]. *)
Definition heartbeat_step (inp : TickInput) (s : State) : State :=
  if wrap32 (millis_check inp - lastHeartbeatTime s) >? HEARTBEAT_INTERVAL then
    s |> sendHeartbeat |> set_lastHeartbeatTime (millis_reset inp)
  else s.

(** The serial step of [loop]. *)
Definition serial_step (inp : TickInput) (s : State) : State :=
  match serial_line inp with
  | Some line =>
      let input := trim line in
      if (0 <? String.length input)%nat then handleUserCommand input s else s
  | None => s
  end.

(** [loop]: one polling tick. *)
Definition loop (inp : TickInput) (s : State) : State :=
  if negb (deviceFound s) then s
  else
    let s :=
      if negb (link_up s) && isConnected s then
        s |> Serial_println "[Error] Connection lost."
          |> set_isConnected false
          |> client_stop
      else s in
    if negb (isConnected s) then s      (* wait for manual reset *)
    else
      s |> heartbeat_step inp
        |> processIncomingPackets
        |> serial_step inp.

End Sketch.

(** [connectToDevice]; [accepted] is the answer of [client.connect] and
    [now] the reading of [millis()] after the settle window, during which
    everything received is read and thrown away. *)
Definition connectToDevice (accepted : bool) (now : Z) (s : State) : State :=
  let s := s |> Serial_print "Connecting to DP564 at "
             |> Serial_println_ip (dp564Ip s)
             |> emit (Connect client (dp564Ip s) TARGET_PORT) in
  if accepted then
    s |> set_link_up true
      |> Serial_println "Socket connected. Performing Handshake..."
      |> client_write HANDSHAKE_MSG_1
      |> delay 100
      |> client_write HANDSHAKE_MSG_2
      |> set_inbound []
      |> set_isConnected true
      |> set_lastHeartbeatTime now
      |> Serial_println "Handshake complete. Ready."
      |> printHelp
  else
    s |> Serial_println "Connection Failed."
      |> set_isConnected false.

(** ** Discovery *)

(** What the network answers during a sweep. *)
Record Network := MkNetwork {
  localIP : IPAddress;                                   (* WiFi.localIP() *)
  accepts : IPAddress -> bool;                           (* scanClient.connect(ip, 4444, 150) *)
  etharp_find_addr : IPAddress -> option HardwareAddress (* the lwIP ARP table *)
}.

(** [getMacFromIp]: the entry of the ARP table, when its index is above -1. *)
Definition getMacFromIp (net : Network) (ip : IPAddress) : option HardwareAddress :=
  etharp_find_addr net ip.

(** The [for (int i = 1; i < 255; i++)] loop of [scanForDolbyDevice], with
    [k] iterations left; [k + i] is 255 throughout. *)
Fixpoint scan_loop (net : Network) (local : IPAddress) (k : nat) (i : Z)
  (s : State) : State :=
  match k with
  | O => s |> Serial_println "\nScan complete."
  | S k' =>
      let target := set_ip3 local i in
      if ip_eqb target local then scan_loop net local k' (i + 1) s   (* continue *)
      else
        let s := if i mod 10 =? 0 then Serial_print "." s else s in
        let s := emit (Connect scanClient target TARGET_PORT) s in
        if accepts net target then
          let s := s |> Serial_printf "\nFound open port 4444 at %s. Checking MAC...\n"
                          [ArgIp target] in
          match getMacFromIp net target with
          | Some mac =>
              let s := s |> Serial_printf "MAC: %02X:%02X:%02X:%02X:%02X:%02X - "
                              [ArgMac mac] in
              if isDolbyMac mac then
                s |> Serial_println "MATCH! Dolby Device Found."
                  |> set_dp564Ip target
                  |> set_deviceFound true
                  |> emit (Stop scanClient)                          (* return *)
              else
                s |> Serial_println "No Match."
                  |> emit (Stop scanClient)
                  |> scan_loop net local k' (i + 1)
          | None =>
              s |> Serial_println "Could not resolve MAC."
                |> emit (Stop scanClient)
                |> scan_loop net local k' (i + 1)
          end
        else scan_loop net local k' (i + 1) s
  end.

(** [scanForDolbyDevice]. *)
Definition scanForDolbyDevice (net : Network) (s : State) : State :=
  s |> Serial_println "Scanning subnet for Dolby devices on port 4444..."
    |> scan_loop net (localIP net) 254 1.

(** [setup]; [wifi_connected] is the outcome of joining an open network
    (which the sketch leaves to the WiFi library), [accepted] and [now] are
    as in [connectToDevice]. *)
Definition setup (wifi_connected : bool) (net : Network) (accepted : bool)
  (now : Z) (s : State) : State :=
  let s := s |> delay 500
             |> Serial_println "\n\n--- DP564 Auto-Discovery Controller ---" in
  let s := if wifi_connected then scanForDolbyDevice net s else s in
  if deviceFound s then connectToDevice accepted now s
  else s |> Serial_println "Startup Failed: No matching Dolby device found.".

(** *** The sweep as the specification words it *)

(** [k] consecutive numbers from [i]. *)
Fixpoint Zseq (i : Z) (k : nat) : list Z :=
  match k with
  | O => []
  | S k' => i :: Zseq (i + 1) k'
  end.

(** The addresses of [local]'s /24 with last octet [i], ..., [i + k - 1],
    without [local] itself. *)
Definition candidates_from (local : IPAddress) (i : Z) (k : nat) : list IPAddress :=
  filter (fun t => negb (ip_eqb t local)) (map (set_ip3 local) (Zseq i k)).

(** The candidates of the sweep: the host addresses .1 to .254. *)
Definition candidates (local : IPAddress) : list IPAddress :=
  candidates_from local 1 254.

(** A candidate is confirmed when it accepts the probe connection and its
    hardware address is found and satisfies the classifier. *)
Definition confirmed (net : Network) (t : IPAddress) : bool :=
  accepts net t &&
  match etharp_find_addr net t with
  | Some mac => isDolbyMac mac
  | None => false
  end.

(** The elements of [l] up to and including the first that satisfies [p]. *)
Fixpoint take_through {A : Type} (p : A -> bool) (l : list A) : list A :=
  match l with
  | [] => []
  | x :: rest => if p x then [x] else x :: take_through p rest
  end.

(** ** Joining a network *)

(** One entry of [WiFi.scanNetworks()]. *)
Record AccessPoint := MkAp {
  ap_ssid : string;      (* WiFi.SSID(i) *)
  ap_rssi : Z;           (* WiFi.RSSI(i) *)
  ap_open : bool         (* WiFi.encryptionType(i) == WIFI_AUTH_OPEN *)
}.

(** The [for] loop of [connectToStrongestOpenWifi] over the entries from
    index [i] on; the answer is [bestNet] and [bestRssi] after the loop.
    Every iteration ends with [delay(10)]. *)
Fixpoint pick_open (aps : list AccessPoint) (i bestNet bestRssi : Z)
  (s : State) : Z * Z * State :=
  match aps with
  | [] => (bestNet, bestRssi, s)
  | ap :: rest =>
      if ap_open ap && (ap_rssi ap >? bestRssi)
      then pick_open rest (i + 1) i (ap_rssi ap) (delay 10 s)
      else pick_open rest (i + 1) bestNet bestRssi (delay 10 s)
  end.

(** The [while] loop that waits for the association: [status k] is what
    the [k]-th call of [WiFi.status()] after [WiFi.begin] reports
    (connected or not), [left] is [20 - retries].  The answer is the state
    and the number of status calls made so far. *)
Fixpoint wait_connected (status : nat -> bool) (left : nat) (poll : nat)
  (s : State) : State * nat :=
  if status poll then (s, S poll)
  else
    match left with
    | O => (s, S poll)
    | S left' =>
        wait_connected status left' (S poll)
          (s |> delay 500 |> Serial_print ".")
    end.

(** [connectToStrongestOpenWifi]: the state after it and the name handed
    to [WiFi.begin], if it was called; [local] is [WiFi.localIP()] once
    associated. *)
Definition connectToStrongestOpenWifi (aps : list AccessPoint)
  (status : nat -> bool) (local : IPAddress) (s : State)
  : State * option string :=
  let s := s |> Serial_println "Scanning for open networks..." in
  let n := Z.of_nat (length aps) in
  if n =? 0 then (s |> Serial_println "No networks found.", None)
  else
    let '(bestNet, bestRssi, s) := pick_open aps 0 (-1) (-1000) s in
    if bestNet >=? 0 then
      let ssid := ap_ssid (nth (Z.to_nat bestNet) aps (MkAp "" 0 false)) in
      let s := s |> Serial_printf "Connecting to OPEN network: %s (RSSI: %d)\n"
                      [ArgStr ssid; ArgInt bestRssi] in
      let '(s, polls) := wait_connected status 20 0 s in
      if status polls then
        (s |> Serial_println "\nWiFi Connected!"
           |> Serial_print "Local IP: "
           |> Serial_println_ip local, Some ssid)
      else (s |> Serial_println "\nFailed to connect.", Some ssid)
    else (s |> Serial_println "No open networks found.", None).

(** ** The rotary-knob sketch *)

Module Knob.

(** The knob sketch has one global, [knob_position]; [linked] and
    [pending] are the state of its [client], [log] its effects. *)
Record KnobState := MkKnob {
  knob_position : Z;
  linked : bool;            (* what client.connected() answers *)
  pending : list Z;         (* bytes received and not read yet *)
  log : list event
}.

Definition kHost : IPAddress := MkIp 192 168 4 91.
Definition kPort : Z := 4444.
Definition kKnobMinValue : Z := 0x02.
Definition kKnobMaxValue : Z := 0xbf.

Definition record (e : event) (s : KnobState) : KnobState :=
  MkKnob (knob_position s) (linked s) (pending s) (log s ++ [e]).

(** [while (client.available()) client.read();] *)
Definition discard_input (s : KnobState) : KnobState :=
  MkKnob (knob_position s) (linked s) [] (log s).

(** The ten bytes of [command]; the last is [knob_position] narrowed to
    [uint8_t]. *)
Definition command (position : Z) : list Z :=
  [0x00; 0x00; 0x00; 0x0a; 0x02; 0x03; 0x12; 0x00; 0x00; to_byte position].

(** The last part of [loop]: send the position when it has changed. *)
Definition send_if_turned (reading : Z) (s : KnobState) : KnobState :=
  if negb (knob_position s =? reading) then
    MkKnob reading (linked s) (pending s) (log s)
      |> record (Write client (command reading))
      |> discard_input
      |> record (Print "Knob value set to: ")
      |> record (Printf "%d" [ArgInt reading])
  else s.

(** [loop]; [reading] is [knob.getPosition()] after [knob.loop()] and
    [accepted] the answer of [client.connect], when it is called.
    [client.flush()] has no effect of its own in the log. *)
Definition loop (reading : Z) (accepted : bool) (s : KnobState) : KnobState :=
  let s := discard_input s in
  if negb (linked s) then
    let s := record (Connect client kHost kPort) s in
    if accepted then
      MkKnob (knob_position s) true (pending s) (log s)
        |> record (Print "Connected to ")
        |> record (Printf "%s" [ArgIp kHost])
        |> record (Print ":")
        |> record (Printf "%d" [ArgInt kPort])
        |> record (Write client [0x00; 0x00; 0x00; 0x05])
        |> record (Write client [0x03])
        |> discard_input
        |> send_if_turned reading
    else
      s |> record (Print "connection failed") |> record (Delay 5000)
  else
    s |> discard_input |> send_if_turned reading.

(** Several runs of [loop], each with its knob reading and the answer a
    connection attempt would get. *)
Definition run (inputs : list (Z * bool)) (s : KnobState) : KnobState :=
  fold_left (fun st inp => loop (fst inp) (snd inp) st) inputs s.

End Knob.

(** ** Measures on the effect log *)

(** The number of heartbeat frames written on [client] in a log. *)
Definition heartbeats (t : list event) : nat :=
  count_occ (list_eq_dec Z.eq_dec) (writes_of client t) HEARTBEAT_PACKET.

(** Several ticks in a row. *)
Definition run_ticks (toFloat : string -> Q) (inputs : list TickInput)
  (s : State) : State :=
  fold_left (fun st inp => loop toFloat inp st) inputs s.

(** The step [drain] takes on one read. *)
Definition after_read (s : State) : State :=
  let '(s1, len) := client_read s in
  match classify (rxBuffer s1) len with
  | Heartbeat => s1
  | kind => apply_frame kind len s1
  end.

(** The four value-carrying frame kinds with their prefixes. *)
Definition value_frames : list (FrameKind * list Z) :=
  [ (VolumeUnsolicitedUpdate, VOLUME_DEVICE_UPDATE_PREFIX);
    (VolumeAck, VOLUME_ACK_PREFIX);
    (DimAck, DIM_ACK_PREFIX);
    (SourceAck, SOURCE_ACK_PREFIX) ].

(** An effect that is a [Serial.printf]. *)
Definition is_printf (e : event) : Prop := exists fmt args, e = Printf fmt args.

(** The number of [c.stop()] calls in a log. *)
Fixpoint stops_of (c : socket) (t : list event) : nat :=
  match t with
  | [] => 0%nat
  | Stop c' :: rest =>
      match c, c' with
      | client, client | scanClient, scanClient => S (stops_of c rest)
      | _, _ => stops_of c rest
      end
  | _ :: rest => stops_of c rest
  end.

(** The pauses of [ms] milliseconds in a log. *)
Definition pauses_of (ms : Z) (t : list event) : nat :=
  length (filter (fun e => match e with Delay d => d =? ms | _ => false end) t).

(** The writes shared by [setVolume], [setDim] and [setSource]: preamble,
    pause, five-byte prefix, one payload byte. *)
Definition send_command (prefix : list Z) (payload : Z) (s : State) : State :=
  s |> client_write PRE_CMD |> delay 100 |> client_write prefix
    |> client_write [payload].

(** More than [RX_SIZE] pending bytes: a heartbeat, 251 zero bytes, and a
    volume acknowledgement for -10.0 dB. *)
Definition heartbeat_then_ack : list Z :=
  HEARTBEAT_PACKET ++ repeat 0 251 ++ VOLUME_ACK_PREFIX ++ [0xAC].

(** ** Sample states *)

(** A session in the Ready state: the device was found at 192.168.4.91,
    the handshake was done at time 0 and the connection is up. *)
Definition ready_state : State :=
  initial_state |> set_dp564Ip (MkIp 192 168 4 91)
                |> set_deviceFound true
                |> set_isConnected true
                |> set_link_up true.

(** A session back in Disconnected with its discovery result kept. *)
Definition disconnected_state : State :=
  initial_state |> set_dp564Ip (MkIp 192 168 4 91)
                |> set_deviceFound true.

(** A mock subnet around 192.168.4.17: two hosts accept the probe, .30
    with a foreign hardware address and .91 with a Dolby one; .92 has a
    Dolby address too. *)
Definition mock_network : Network :=
  MkNetwork (MkIp 192 168 4 17)
    (fun t => (ip3 t =? 30) || (ip3 t =? 91) || (ip3 t =? 92))
    (fun t =>
       if ip3 t =? 30 then Some (MkMac 0x3C 0x22 0xFB 0x01 0x02 0x03)
       else if ip3 t =? 91 then Some (MkMac 0x00 0xD0 0x46 0x0A 0x0B 0x0C)
       else if ip3 t =? 92 then Some (MkMac 0x00 0x12 0xA6 0x0A 0x0B 0x0D)
       else None).

(** A subnet where nothing answers. *)
Definition silent_network : Network :=
  MkNetwork (MkIp 192 168 4 17) (fun _ => false) (fun _ => None).

(** Exposes numerators and denominators of rational (in)equalities. *)
Ltac Qunfold :=
  unfold Qeq, Qle, Qlt, Qdiv, Qmult, Qinv, Qplus, Qminus, Qopp, inject_Z;
  cbn [Qnum Qden].

(** * Properties *)

(** ** The address classifier *)

Lemma octet_high_bits (m j : Z) : 0 <= m < 256 -> 8 <= j -> Z.testbit m j = false.
Proof.
  intros Hm Hj.
  destruct (Z.eq_dec m 0) as [-> | Hnz].
  - apply Z.bits_0.
  - apply Z.bits_above_log2; [lia |].
    assert (Z.log2 m < 8) by (apply Z.log2_lt_pow2; lia).
    lia.
Qed.

Lemma octet_bits_spec (j : Z) : In j octet_bits <-> 0 <= j < 8.
Proof.
  unfold octet_bits; simpl; split; intros H.
  - repeat (destruct H as [<- | H]; [lia |]). contradiction.
  - assert (j = 0 \/ j = 1 \/ j = 2 \/ j = 3 \/ j = 4 \/ j = 5 \/ j = 6 \/ j = 7) by lia.
    intuition auto.
Qed.

Lemma bit_agrees_true (o v m j : Z) :
  bit_agrees o v m j = true <->
  (Z.testbit m j = true -> Z.testbit o j = Z.testbit v j).
Proof.
  unfold bit_agrees.
  destruct (Z.testbit m j), (Z.testbit o j), (Z.testbit v j); simpl;
    split; intros H; try reflexivity; try discriminate; auto;
    try (specialize (H eq_refl); discriminate).
Qed.

Lemma octet_agrees_true (o v m : Z) :
  octet_agrees o (v, m) = true <->
  (forall j, 0 <= j < 8 -> Z.testbit m j = true -> Z.testbit o j = Z.testbit v j).
Proof.
  unfold octet_agrees; simpl fst; simpl snd.
  rewrite forallb_forall. split; intros H j Hj.
  - apply bit_agrees_true, H, octet_bits_spec, Hj.
  - apply bit_agrees_true, H, octet_bits_spec, Hj.
Qed.

(** Agreement on the masked bits is equality after masking. *)
Lemma octet_agrees_land (o v m : Z) :
  0 <= m < 256 ->
  octet_agrees o (v, m) = (Z.land o m =? Z.land v m).
Proof.
  intros Hm.
  apply eq_true_iff_eq.
  rewrite octet_agrees_true, Z.eqb_eq. split; intros H.
  - apply Z.bits_inj'. intros j Hj.
    rewrite !Z.land_spec.
    destruct (Z_lt_dec j 8) as [Hlt | Hge].
    + destruct (Z.testbit m j) eqn:Em.
      * rewrite (H j); auto; lia.
      * rewrite !andb_false_r; reflexivity.
    + rewrite (octet_high_bits m j) by lia.
      rewrite !andb_false_r; reflexivity.
  - intros j Hj Em.
    assert (Hb : Z.testbit (Z.land o m) j = Z.testbit (Z.land v m) j) by (rewrite H; reflexivity).
    rewrite !Z.land_spec, Em, !andb_true_r in Hb. exact Hb.
Qed.

Lemma octet_land_FF (o : Z) : is_octet o -> Z.land o 0xFF = o.
Proof.
  intros Ho. change 0xFF with (Z.ones 8).
  rewrite Z.land_ones by lia.
  apply Z.mod_small. exact Ho.
Qed.

Lemma octet_agrees_exact (o v : Z) :
  is_octet o -> is_octet v -> octet_agrees o (exact v) = (o =? v).
Proof.
  intros Ho Hv. unfold exact.
  rewrite octet_agrees_land by lia.
  rewrite !octet_land_FF by assumption. reflexivity.
Qed.

Lemma octet_agrees_nibble (o v : Z) :
  Z.land v 0xF0 = v -> octet_agrees o (upper_nibble v) = (Z.land o 0xF0 =? v).
Proof.
  intros Hv. unfold upper_nibble.
  rewrite octet_agrees_land by lia.
  rewrite Hv. reflexivity.
Qed.

Lemma if_true_orb (c x : bool) : (if c then true else x) = c || x.
Proof. destruct c; reflexivity. Qed.

(** The classifier computes the disjunction of the rules. *)
Lemma isDolbyMac_rules (mac : HardwareAddress) :
  valid_mac mac -> isDolbyMac mac = existsb (rule_matches mac) vendor_rules.
Proof.
  intros (H0 & H1 & H2 & H3 & H4 & H5).
  unfold vendor_rules, rule_matches, existsb, rule_matches_from.
  repeat rewrite octet_agrees_exact by (first [assumption | unfold is_octet; lia]).
  repeat rewrite octet_agrees_nibble by reflexivity.
  unfold isDolbyMac. rewrite !if_true_orb.
  unfold mac_at.
  rewrite !andb_true_r, !orb_false_r, <- !andb_assoc.
  reflexivity.
Qed.

Lemma differs_not_matches_from (mac : HardwareAddress) (rule : VendorPrefixRule) :
  forall (i n : nat) (v m j : Z),
    nth_error rule n = Some (v, m) -> 0 <= j < 8 -> Z.testbit m j = true ->
    Z.testbit (mac_at mac (i + n)) j <> Z.testbit v j ->
    rule_matches_from mac i rule = false.
Proof.
  induction rule as [| [v0 m0] rest IH]; intros i n v m j Hn Hj Hm Hd.
  - destruct n; discriminate.
  - simpl. destruct n as [| n].
    + simpl in Hn. injection Hn as -> ->.
      rewrite Nat.add_0_r in Hd.
      destruct (octet_agrees (mac_at mac i) (v, m)) eqn:E; [| reflexivity].
      exfalso. apply Hd. exact (proj1 (octet_agrees_true _ _ _) E j Hj Hm).
    + simpl in Hn.
      rewrite (IH (S i) n v m j Hn Hj Hm).
      * apply andb_false_r.
      * replace (S i + n)%nat with (i + S n)%nat by lia. exact Hd.
Qed.

Lemma differs_not_matches (mac : HardwareAddress) (rule : VendorPrefixRule) :
  differs_in_unmasked_bit mac rule -> rule_matches mac rule = false.
Proof.
  intros (i & v & m & j & Hn & Hj & Hm & Hd).
  exact (differs_not_matches_from mac rule 0 i v m j Hn Hj Hm Hd).
Qed.

(** C2: on every 6-octet hardware address the classifier answers [true]
    when the address matches one of the configured vendor rules (every bit
    a rule's mask selects agrees with the rule's value), and [false] when
    the address differs from every rule in some unmasked bit.  The
    classifier is a total function to [bool]. *)
Theorem isDolbyMac_vendor_match (mac : HardwareAddress) (Hmac : valid_mac mac) :
  ((exists rule, In rule vendor_rules /\ rule_matches mac rule = true) ->
   isDolbyMac mac = true) /\
  ((forall rule, In rule vendor_rules -> differs_in_unmasked_bit mac rule) ->
   isDolbyMac mac = false).
Proof.
  rewrite (isDolbyMac_rules mac Hmac). split.
  - intros (rule & Hin & Hmatch).
    apply existsb_exists. exists rule. split; assumption.
  - intros Hall.
    destruct (existsb (rule_matches mac) vendor_rules) eqn:E; [| reflexivity].
    apply existsb_exists in E. destruct E as (rule & Hin & Hmatch).
    rewrite (differs_not_matches mac rule (Hall rule Hin)) in Hmatch.
    discriminate.
Qed.

Lemma isDolbyMac_vendor_match_witness :
  isDolbyMac (MkMac 0x70 0xB3 0xD5 0x3F 0x5A 0x01) = true /\
  isDolbyMac (MkMac 0x70 0xB3 0xD5 0x3F 0x6A 0x01) = false.
Proof.
  split.
  - refine (proj1 (isDolbyMac_vendor_match
                     (MkMac 0x70 0xB3 0xD5 0x3F 0x5A 0x01) _) _).
    + unfold valid_mac, is_octet. cbn. lia.
    + exists [exact 0x70; exact 0xB3; exact 0xD5; exact 0x3F; upper_nibble 0x50].
      split; [| reflexivity].
      right. right. left. reflexivity.
  - refine (proj2 (isDolbyMac_vendor_match
                     (MkMac 0x70 0xB3 0xD5 0x3F 0x6A 0x01) _) _).
    + unfold valid_mac, is_octet. cbn. lia.
    + intros rule Hin.
      destruct Hin as [<- | [<- | [<- | [<- | [<- | []]]]]].
      * exists 0%nat, 0x00, 0xFF, 4. repeat split; try lia. discriminate.
      * exists 0%nat, 0x00, 0xFF, 4. repeat split; try lia. discriminate.
      * exists 4%nat, 0x50, 0xF0, 4. repeat split; try lia. discriminate.
      * exists 3%nat, 0x73, 0xFF, 2. repeat split; try lia. discriminate.
      * exists 0%nat, 0xD4, 0xFF, 7. repeat split; try lia. discriminate.
Defined.

Example dolby_australia_prefix : isDolbyMac (MkMac 0x00 0x12 0xA6 0xFF 0x00 0x7E) = true.
Proof. reflexivity. Qed.

Example dolby_nibble_prefix : isDolbyMac (MkMac 0xD4 0x25 0xCC 0x8F 0x00 0x01) = true.
Proof. reflexivity. Qed.

Example foreign_prefix : isDolbyMac (MkMac 0xD4 0x25 0xCC 0x7F 0x00 0x01) = false.
Proof. reflexivity. Qed.

(** ** Effect logs *)

Lemma writes_of_app (c : socket) (t1 t2 : list event) :
  writes_of c (t1 ++ t2) = writes_of c t1 ++ writes_of c t2.
Proof.
  induction t1 as [| e t1 IH]; simpl; [reflexivity |].
  destruct e; try exact IH.
  destruct c, c0; simpl; rewrite ?IH; reflexivity.
Qed.

Lemma connects_of_app (c : socket) (t1 t2 : list event) :
  connects_of c (t1 ++ t2) = connects_of c t1 ++ connects_of c t2.
Proof.
  induction t1 as [| e t1 IH]; simpl; [reflexivity |].
  destruct e; try exact IH.
  destruct c, c0; simpl; rewrite ?IH; reflexivity.
Qed.

Lemma prints_of_app (t1 t2 : list event) :
  prints_of (t1 ++ t2) = prints_of t1 ++ prints_of t2.
Proof.
  induction t1 as [| e t1 IH]; [reflexivity |].
  destruct e; cbn [app prints_of]; rewrite ?IH; reflexivity.
Qed.

Lemma trace_emit (e : event) (s : State) : trace (emit e s) = trace s ++ [e].
Proof. reflexivity. Qed.

(** ** Volume conversion and the volume command *)

Lemma Qltb_true (x y : Q) : Qltb x y = true <-> (x < y)%Q.
Proof.
  unfold Qltb. rewrite negb_true_iff. split; intros H.
  - apply Qnot_le_lt. intros Hle. apply Qle_bool_iff in Hle. congruence.
  - destruct (Qle_bool y x) eqn:E; [| reflexivity].
    apply Qle_bool_iff in E. exfalso. exact (Qlt_not_le _ _ H E).
Qed.

Lemma Qltb_false (x y : Q) : Qltb x y = false <-> (y <= x)%Q.
Proof.
  unfold Qltb. rewrite negb_false_iff. apply Qle_bool_iff.
Qed.

(** The validation of [setVolume] accepts exactly the range [-95, 0]. *)
Lemma volume_check_accepts (db : Q) :
  Qltb 0 db || Qltb db (-95) = false <-> (-95 <= db <= 0)%Q.
Proof.
  rewrite orb_false_iff, !Qltb_false. tauto.
Qed.

Lemma volume_check_rejects (db : Q) :
  Qltb 0 db || Qltb db (-95) = true <-> (0 < db \/ db < -95)%Q.
Proof.
  rewrite orb_true_iff, !Qltb_true. tauto.
Qed.

(** What an accepted [setVolume] does. *)
Lemma setVolume_accepted (db : Q) (s : State) :
  (-95 <= db <= 0)%Q ->
  setVolume db s =
  s |> Serial_printf "Sending Volume: %.1f dB\n" [ArgFloat db]
    |> client_write PRE_CMD
    |> delay 100
    |> client_write VOLUME_CMD_PREFIX
    |> client_write [to_byte (192 + Qtrunc (db * 2))].
Proof.
  intros H. unfold setVolume.
  rewrite (proj2 (volume_check_accepts db) H). reflexivity.
Qed.

Lemma Qtrunc_range (db : Q) :
  (-95 <= db <= 0)%Q -> -190 <= Qtrunc (db * 2) <= 0.
Proof.
  destruct db as [n d]. unfold Qtrunc. Qunfold. intros [Hlo Hhi].
  replace (Z.pos (d * 1)) with (Z.pos d) by lia.
  split.
  - rewrite <- (Z.quot_mul (-190) (Z.pos d)) by lia.
    apply Z.quot_le_mono; lia.
  - replace 0 with (0 ÷ Z.pos d) by (apply Z.quot_0_l; lia).
    apply Z.quot_le_mono; lia.
Qed.

Lemma half_dB_range (k : Z) : -190 <= k <= 0 -> (-95 <= half_dB k <= 0)%Q.
Proof.
  intros Hk. unfold half_dB. Qunfold. lia.
Qed.

Lemma Qtrunc_half_dB (k : Z) : Qtrunc (half_dB k * 2) = k.
Proof.
  unfold Qtrunc, half_dB. Qunfold.
  rewrite Z.mul_1_r. apply Z.quot_mul. lia.
Qed.

Lemma encode_spec_half_dB (k : Z) : -190 <= k <= 0 -> encode_spec (half_dB k) = 192 + k.
Proof.
  intros Hk. unfold encode_spec, Qround_nearest.
  assert (E : (192 + half_dB k * 2 == inject_Z (192 + k))%Q).
  { unfold half_dB. Qunfold. lia. }
  assert (Hpos : Qle_bool 0 (192 + half_dB k * 2) = true).
  { apply Qle_bool_iff. rewrite E. Qunfold. lia. }
  rewrite Hpos.
  rewrite (Qfloor_comp _ (inject_Z (192 + k) + (1 # 2))%Q) by (rewrite E; reflexivity).
  unfold Qfloor. Qunfold.
  replace ((192 + k) * 2 + 1 * 1) with (1 + (192 + k) * 2) by lia.
  change (Z.pos (1 * 2)) with 2.
  rewrite Z.div_add by lia. reflexivity.
Qed.

Lemma decode_half_dB (k : Z) : (volume_of_byte (192 + k) == half_dB k)%Q.
Proof.
  unfold volume_of_byte, half_dB.
  replace (192 + k - 192) with k by lia. reflexivity.
Qed.

(** ** Inbound processing *)

Lemma drain_no_input (fuel : nat) (s : State) : inbound s = [] -> drain fuel s = s.
Proof.
  intros H. destruct fuel; simpl; [reflexivity |].
  unfold client_available. rewrite H. reflexivity.
Qed.

Lemma apply_frame_inbound (kind : FrameKind) (len : Z) (s : State) :
  inbound (apply_frame kind len s) = inbound s.
Proof. destruct kind; reflexivity. Qed.

(** What each branch does to the three fields of the device state. *)
Lemma apply_frame_device_state (kind : FrameKind) (len : Z) (s : State) :
  device_state (apply_frame kind len s) =
  let b := last_byte (rxBuffer s) len in
  match kind with
  | VolumeUnsolicitedUpdate | VolumeAck =>
      (volume_of_byte b, isDimmed s, currentSource s)
  | DimAck => (currentVolume s, b =? 0x01, currentSource s)
  | SourceAck => (currentVolume s, isDimmed s, source_after b (currentSource s))
  | Heartbeat | Unrecognized => device_state s
  end.
Proof. destruct kind; reflexivity. Qed.

(** When at most [RX_SIZE] bytes are pending, one read empties the input
    and the loop ends after it. *)
Lemma process_single_read (s : State) :
  inbound s <> [] -> (length (inbound s) <= RX_SIZE)%nat ->
  processIncomingPackets s = after_read s.
Proof.
  intros Hne Hlen. unfold processIncomingPackets, after_read.
  destruct (inbound s) as [| b rest] eqn:E; [contradiction | clear Hne].
  cbn [length drain]. unfold client_available. rewrite E.
  unfold client_read. rewrite E.
  rewrite (firstn_all2 (n := RX_SIZE) (b :: rest)) by exact Hlen.
  rewrite (skipn_all2 (n := RX_SIZE) (b :: rest)) by exact Hlen.
  cbv zeta.
  replace (Z.of_nat (length (b :: rest)) <=? 0) with false
    by (symmetry; apply Z.leb_gt; cbn [length]; lia).
  destruct (classify _ _); try reflexivity;
    apply drain_no_input; rewrite apply_frame_inbound; reflexivity.
Qed.

(** A buffer of at most ten bytes never selects a value-carrying branch. *)
Lemma classify_short (buf : list Z) (len : Z) :
  len <= 10 -> classify buf len = Heartbeat \/ classify buf len = Unrecognized.
Proof.
  intros Hlen. unfold classify.
  destruct (memcmp_eq buf HEARTBEAT_PACKET); [left; reflexivity | right].
  change (sizeof VOLUME_DEVICE_UPDATE_PREFIX) with 10.
  change (sizeof VOLUME_ACK_PREFIX) with 10.
  change (sizeof DIM_ACK_PREFIX) with 10.
  change (sizeof SOURCE_ACK_PREFIX) with 10.
  replace (len >? 10) with false by (symmetry; rewrite Z.gtb_ltb; apply Z.ltb_ge; lia).
  reflexivity.
Qed.

(** A value-carrying branch is taken only on more than ten fresh bytes,
    after its ten-byte prefix. *)
Lemma classify_value_frame (buf : list Z) (len : Z) :
  classify buf len <> Heartbeat -> classify buf len <> Unrecognized ->
  10 < len /\
  (memcmp_eq buf VOLUME_DEVICE_UPDATE_PREFIX = true \/
   memcmp_eq buf VOLUME_ACK_PREFIX = true \/
   memcmp_eq buf DIM_ACK_PREFIX = true \/
   memcmp_eq buf SOURCE_ACK_PREFIX = true).
Proof.
  intros Hh Hu. split.
  - destruct (Z_lt_dec 10 len) as [H | H]; [exact H |].
    destruct (classify_short buf len) as [E | E]; [lia | |]; contradiction.
  - revert Hh Hu. unfold classify.
    destruct (memcmp_eq buf HEARTBEAT_PACKET); [congruence |].
    destruct (memcmp_eq buf VOLUME_DEVICE_UPDATE_PREFIX); [auto |].
    destruct (memcmp_eq buf VOLUME_ACK_PREFIX); [auto |].
    destruct (memcmp_eq buf DIM_ACK_PREFIX); [auto |].
    destruct (memcmp_eq buf SOURCE_ACK_PREFIX); [auto |].
    rewrite !andb_false_r. congruence.
Qed.

(** [drain] writes nothing, connects nothing and keeps the session flags
    and the heartbeat timer. *)
Lemma drain_frame (fuel : nat) : forall s : State,
  writes_of client (trace (drain fuel s)) = writes_of client (trace s) /\
  connects_of client (trace (drain fuel s)) = connects_of client (trace s) /\
  lastHeartbeatTime (drain fuel s) = lastHeartbeatTime s /\
  isConnected (drain fuel s) = isConnected s /\
  deviceFound (drain fuel s) = deviceFound s.
Proof.
  induction fuel as [| fuel IH]; intros s; [repeat split |].
  cbn [drain]. destruct (client_available s); [| repeat split].
  unfold client_read. cbv zeta.
  destruct (_ <=? 0); [repeat split |].
  match goal with |- context [classify ?b ?l] => destruct (classify b l) end;
    try (repeat split; fail);
    match goal with |- context [drain fuel ?st] =>
      destruct (IH st) as (Hw & Hc & Ht & Hi & Hd);
      rewrite Hw, Hc, Ht, Hi, Hd
    end;
    cbn [apply_frame]; unfold Serial_printf;
    rewrite ?trace_emit, ?writes_of_app, ?connects_of_app; cbn [writes_of connects_of];
    rewrite ?app_nil_r; repeat split.
Qed.

(** The fuel [processIncomingPackets] gives to [drain] is enough: any
    larger amount gives the same result, so the loop of the sketch ends
    and [drain] computes what it leaves. *)
Lemma drain_fuel_enough (fuel1 : nat) :
  forall (fuel2 : nat) (s : State),
    (length (inbound s) <= fuel1)%nat -> (length (inbound s) <= fuel2)%nat ->
    drain fuel1 s = drain fuel2 s.
Proof.
  induction fuel1 as [| fuel1 IH]; intros fuel2 s H1 H2.
  - cbn [drain]. symmetry. apply drain_no_input.
    destruct (inbound s); [reflexivity | cbn [length] in H1; lia].
  - destruct (inbound s) as [| b rest] eqn:E.
    + rewrite !drain_no_input by exact E. reflexivity.
    + destruct fuel2 as [| fuel2]; [cbn [length] in H2; lia |].
      cbn [drain]. unfold client_available. rewrite E.
      unfold client_read. cbv zeta beta iota.
      destruct (_ <=? 0); [reflexivity |].
      assert (Hless : (length (skipn RX_SIZE (inbound s)) < length (inbound s))%nat).
      { rewrite length_skipn, E. cbn [length]. unfold RX_SIZE. lia. }
      rewrite E in Hless. cbn [length] in H1, H2, Hless.
      match goal with |- context [classify ?b ?l] => destruct (classify b l) end;
        try reflexivity;
        apply IH; rewrite apply_frame_inbound;
        cbn [inbound set_inbound set_rxBuffer]; rewrite E; lia.
Qed.

Lemma processIncomingPackets_fuel (fuel : nat) (s : State) :
  (length (inbound s) <= fuel)%nat -> drain fuel s = processIncomingPackets s.
Proof.
  intros H. unfold processIncomingPackets. apply drain_fuel_enough; [exact H | lia].
Qed.

(** The writes of an accepted [setVolume]: the preamble, the command prefix
    and one payload byte, which the [(byte)] cast leaves as computed. *)
Lemma setVolume_writes (db : Q) (s : State) :
  (-95 <= db <= 0)%Q ->
  writes_of client (trace (setVolume db s)) =
    writes_of client (trace s) ++
    [PRE_CMD; VOLUME_CMD_PREFIX; [192 + Qtrunc (db * 2)]].
Proof.
  intros Hin. pose proof (Qtrunc_range db Hin) as Hr.
  rewrite setVolume_accepted by exact Hin.
  unfold to_byte. rewrite Z.mod_small by lia.
  unfold client_write, delay, Serial_printf.
  rewrite !trace_emit, !writes_of_app. cbn [writes_of].
  rewrite !app_nil_r, <- !app_assoc. reflexivity.
Qed.

Lemma setVolume_prints (db : Q) (s : State) :
  (-95 <= db <= 0)%Q ->
  prints_of (trace (setVolume db s)) =
    prints_of (trace s) ++ ["Sending Volume: %.1f dB\n"%string].
Proof.
  intros Hin. rewrite setVolume_accepted by exact Hin.
  unfold client_write, delay, Serial_printf.
  rewrite !trace_emit, !prints_of_app. cbn [prints_of].
  rewrite !app_nil_r. reflexivity.
Qed.

(** Reading a volume acknowledgement that carries byte [b] stores the
    volume of [b], whatever the buffer held before. *)
Lemma volume_ack_sets_volume (b : Z) (s : State) :
  currentVolume (processIncomingPackets (set_inbound (VOLUME_ACK_PREFIX ++ [b]) s))
  = volume_of_byte b.
Proof.
  rewrite process_single_read.
  - unfold after_read, client_read, read_into. cbn. reflexivity.
  - discriminate.
  - cbn. unfold RX_SIZE. lia.
Qed.

(** C1: for every dB value [v = k / 2] with [-95 <= v <= 0], the volume
    command transmits the byte [round (192 + v * 2)], and decoding that
    byte, as done on a volume acknowledgement, gives back [v] exactly. *)
Theorem volume_round_trip (k : Z) (s : State) (Hk : -190 <= k <= 0) :
  writes_of client (trace (setVolume (half_dB k) s)) =
    writes_of client (trace s) ++
    [PRE_CMD; VOLUME_CMD_PREFIX; [encode_spec (half_dB k)]] /\
  (decode_spec (encode_spec (half_dB k)) == half_dB k)%Q /\
  (currentVolume
     (processIncomingPackets
        (set_inbound (VOLUME_ACK_PREFIX ++ [encode_spec (half_dB k)]) s))
   == half_dB k)%Q.
Proof.
  rewrite (encode_spec_half_dB k Hk). repeat split.
  - rewrite setVolume_writes by (apply half_dB_range; exact Hk).
    rewrite Qtrunc_half_dB. reflexivity.
  - apply decode_half_dB.
  - rewrite volume_ack_sets_volume. apply decode_half_dB.
Qed.

Lemma volume_round_trip_witness :
  writes_of client (trace (setVolume (half_dB (-20)) ready_state)) =
    [PRE_CMD; VOLUME_CMD_PREFIX; [172]] /\
  (currentVolume
     (processIncomingPackets
        (set_inbound (VOLUME_ACK_PREFIX ++ [172%Z]) ready_state))
   == half_dB (-20))%Q.
Proof.
  destruct (volume_round_trip (-20) ready_state ltac:(lia)) as (Hw & _ & Hv).
  split.
  - exact Hw.
  - exact Hv.
Defined.

(** C4: a volume outside [-95, 0] is refused before anything is encoded or
    sent: [setVolume] only prints the error, so no byte is written to the
    transport and the device state is unchanged. *)
Theorem setVolume_out_of_range (db : Q) (s : State)
  (Hout : (0 < db \/ db < -95)%Q) :
  setVolume db s =
    Serial_println "Error: Volume must be between -95.0 and 0.0" s /\
  writes_of client (trace (setVolume db s)) = writes_of client (trace s) /\
  device_state (setVolume db s) = device_state s.
Proof.
  assert (E : setVolume db s =
              Serial_println "Error: Volume must be between -95.0 and 0.0" s).
  { unfold setVolume. rewrite (proj2 (volume_check_rejects db) Hout). reflexivity. }
  rewrite E. repeat split.
  unfold Serial_println. rewrite trace_emit, writes_of_app. cbn [writes_of].
  apply app_nil_r.
Qed.

Lemma setVolume_out_of_range_witness :
  writes_of client (trace (setVolume 5 ready_state)) = [] /\
  prints_of (trace (setVolume 5 ready_state)) =
    ["Error: Volume must be between -95.0 and 0.0"%string].
Proof.
  destruct (setVolume_out_of_range 5 ready_state) as (E & Hw & _).
  - left. reflexivity.
  - split.
    + exact Hw.
    + rewrite E. reflexivity.
Defined.

(** C8 as stated fails: -0.375 dB passes the validation, the byte sent is
    192, and [round (192 + (-0.375) * 2)] is 191. *)
Lemma setVolume_payload_not_rounded :
  Qltb 0 (-3 # 8) || Qltb (-3 # 8) (-95) = false /\
  writes_of client (trace (setVolume (-3 # 8) ready_state)) =
    [PRE_CMD; VOLUME_CMD_PREFIX; [192]] /\
  encode_spec (-3 # 8) = 191 /\
  writes_of client (trace (setVolume (-3 # 8) ready_state)) <>
    [PRE_CMD; VOLUME_CMD_PREFIX; [encode_spec (-3 # 8)]].
Proof.
  repeat split; try reflexivity.
  intros H. vm_compute in H. discriminate H.
Qed.

(** C8, amended: for every dB accepted by the validation the payload byte
    is [192 + trunc (dB * 2)], the product being truncated toward zero by
    the integer cast; the byte lies between 2 and 192. *)
Theorem setVolume_payload_truncated (db : Q) (s : State)
  (Hin : (-95 <= db <= 0)%Q) :
  writes_of client (trace (setVolume db s)) =
    writes_of client (trace s) ++
    [PRE_CMD; VOLUME_CMD_PREFIX; [192 + Qtrunc (db * 2)]] /\
  2 <= 192 + Qtrunc (db * 2) <= 192.
Proof.
  split.
  - apply setVolume_writes. exact Hin.
  - pose proof (Qtrunc_range db Hin). lia.
Qed.

Lemma setVolume_payload_truncated_witness :
  writes_of client (trace (setVolume (-81 # 4) ready_state)) =
    [PRE_CMD; VOLUME_CMD_PREFIX; [152]].
Proof.
  destruct (setVolume_payload_truncated (-81 # 4) ready_state) as (Hw & _).
  - split; Qunfold; lia.
  - exact Hw.
Defined.

(** ** Operator commands *)

Lemma substring_whole (s : string) : String.substring 0 (String.length s) s = s.
Proof.
  induction s as [| c s IH]; [reflexivity |].
  cbn [String.length String.substring]. rewrite IH. reflexivity.
Qed.

(** The command word and the argument [handleUserCommand] extracts from a
    line that starts with the word and one space. *)
Lemma volume_line_split (arg : string) :
  indexOf " "%char ("volume " ++ arg) = 6 /\
  substring_to ("volume " ++ arg) 0 6 = "volume"%string /\
  substring_from ("volume " ++ arg) (6 + 1) = arg.
Proof.
  repeat split.
  unfold substring_from.
  change (Z.to_nat (6 + 1)) with 7%nat.
  change (String.length ("volume " ++ arg)) with (7 + String.length arg)%nat.
  replace (7 + String.length arg - 7)%nat with (String.length arg) by lia.
  cbn [append String.substring].
  apply substring_whole.
Qed.

(** The decimal reading answers 0 for text whose first character after
    the leading white space is neither a digit, a sign nor a point. *)
Lemma decimal_toFloat_not_number (text : string) (c : ascii) (r : string) :
  trim_left text = String c r ->
  digit_of c = None -> c <> "-"%char -> c <> "+"%char -> c <> "."%char ->
  decimal_toFloat text = 0%Q.
Proof.
  intros Ht Hd Hm Hp Hdot. unfold decimal_toFloat. rewrite Ht.
  assert (Hr : read_digits (String c r) 0 0 = (0, 0%nat, String c r))
    by (cbn [read_digits]; rewrite Hd; reflexivity).
  destruct c as [[] [] [] [] [] [] [] []];
    try (exfalso; apply Hm; reflexivity);
    try (exfalso; apply Hp; reflexivity);
    try (exfalso; apply Hdot; reflexivity);
    rewrite Hr; reflexivity.
Qed.

(** C10: a line made of the word volume, a space and an argument that
    [toFloat] reads as 0 (its answer for text that is no number) is not
    refused: 0 passes the range check, no error is printed, and the volume
    command is sent with payload byte 192, the encoding of 0.0 dB. *)
Theorem volume_unparsed_argument_sends_192
  (toFloat : string -> Q) (arg : string) (s : State)
  (Hzero : (toFloat arg == 0)%Q) :
  handleUserCommand toFloat ("volume " ++ arg) s = setVolume (toFloat arg) s /\
  writes_of client (trace (handleUserCommand toFloat ("volume " ++ arg) s)) =
    writes_of client (trace s) ++ [PRE_CMD; VOLUME_CMD_PREFIX; [192]] /\
  prints_of (trace (handleUserCommand toFloat ("volume " ++ arg) s)) =
    prints_of (trace s) ++ ["Sending Volume: %.1f dB\n"%string].
Proof.
  assert (E : handleUserCommand toFloat ("volume " ++ arg) s
              = setVolume (toFloat arg) s).
  { unfold handleUserCommand.
    destruct (volume_line_split arg) as (Hi & Hc & Ha).
    rewrite Hi. cbv zeta.
    change (6 =? -1) with false. cbv iota.
    rewrite Hc, Ha. reflexivity. }
  assert (Hin : (-95 <= toFloat arg <= 0)%Q).
  { rewrite Hzero. split; Qunfold; lia. }
  assert (Ht : Qtrunc (toFloat arg * 2) = 0).
  { revert Hzero. destruct (toFloat arg) as [n d]. unfold Qtrunc. Qunfold.
    intros H. replace n with 0 by lia. reflexivity. }
  rewrite E. split; [reflexivity |]. split.
  - rewrite setVolume_writes by exact Hin. rewrite Ht. reflexivity.
  - apply setVolume_prints. exact Hin.
Qed.

Lemma volume_unparsed_argument_witness :
  (decimal_toFloat "loud" == 0)%Q /\
  writes_of client (trace (handleUserCommand decimal_toFloat "volume loud" ready_state)) =
    [PRE_CMD; VOLUME_CMD_PREFIX; [192%Z]].
Proof.
  split.
  - reflexivity.
  - exact (proj1 (proj2 (volume_unparsed_argument_sends_192
                           decimal_toFloat "loud" ready_state (Qeq_refl 0)))).
Defined.

Example decimal_toFloat_number : (decimal_toFloat "-20.5" == -41 # 2)%Q.
Proof. reflexivity. Qed.

Example decimal_toFloat_blank : (decimal_toFloat "" == 0)%Q.
Proof. reflexivity. Qed.

Example volume_command_in_range :
  writes_of client (trace (handleUserCommand decimal_toFloat "Volume -20.5" ready_state)) =
    [PRE_CMD; VOLUME_CMD_PREFIX; [151]].
Proof. reflexivity. Qed.

Example volume_command_without_argument :
  writes_of client (trace (handleUserCommand decimal_toFloat "volume" ready_state)) =
    [PRE_CMD; VOLUME_CMD_PREFIX; [192]].
Proof. reflexivity. Qed.

(** A whole tick: the line is trimmed before it is handled. *)
Example tick_with_volume_line :
  writes_of client
    (trace (loop decimal_toFloat (MkTick 100 100 (Some "  volume -10 "%string))
              ready_state)) =
    [PRE_CMD; VOLUME_CMD_PREFIX; [172]].
Proof. vm_compute. reflexivity. Qed.

(** ** The polling tick *)

Lemma heartbeats_app (t1 t2 : list event) :
  heartbeats (t1 ++ t2) = (heartbeats t1 + heartbeats t2)%nat.
Proof. unfold heartbeats. rewrite writes_of_app. apply count_occ_app. Qed.

Lemma heartbeats_write (bytes : list Z) (s : State) :
  bytes <> HEARTBEAT_PACKET ->
  heartbeats (trace (client_write bytes s)) = heartbeats (trace s).
Proof.
  intros Hne. unfold client_write. rewrite trace_emit, heartbeats_app.
  unfold heartbeats at 2. cbn [writes_of].
  rewrite count_occ_cons_neq by exact Hne. cbn [count_occ]. lia.
Qed.

Lemma heartbeats_write_heartbeat (s : State) :
  heartbeats (trace (client_write HEARTBEAT_PACKET s)) = S (heartbeats (trace s)).
Proof.
  unfold client_write. rewrite trace_emit, heartbeats_app.
  unfold heartbeats at 2. cbn [writes_of].
  rewrite count_occ_cons_eq by reflexivity. cbn [count_occ]. lia.
Qed.

Lemma heartbeats_silent (e : event) (s : State) :
  writes_of client [e] = [] -> heartbeats (trace (emit e s)) = heartbeats (trace s).
Proof.
  intros H. rewrite trace_emit, heartbeats_app.
  unfold heartbeats at 2. rewrite H. cbn [count_occ]. lia.
Qed.

Lemma send_command_frame (prefix : list Z) (payload : Z) (s : State) :
  length prefix = 5%nat -> hd 0 prefix = 0x02 ->
  heartbeats (trace (send_command prefix payload s)) = heartbeats (trace s) /\
  connects_of client (trace (send_command prefix payload s)) =
    connects_of client (trace s) /\
  lastHeartbeatTime (send_command prefix payload s) = lastHeartbeatTime s.
Proof.
  intros Hlen Hhd. unfold send_command. repeat split.
  - rewrite heartbeats_write by discriminate.
    rewrite heartbeats_write
      by (intros ->; discriminate Hhd).
    unfold delay. rewrite heartbeats_silent by reflexivity.
    apply heartbeats_write. discriminate.
  - unfold client_write, delay. rewrite !trace_emit, !connects_of_app.
    cbn [connects_of]. rewrite !app_nil_r. reflexivity.
Qed.

Lemma print_frame (e : event) (s : State) :
  writes_of client [e] = [] -> connects_of client [e] = [] ->
  heartbeats (trace (emit e s)) = heartbeats (trace s) /\
  connects_of client (trace (emit e s)) = connects_of client (trace s) /\
  lastHeartbeatTime (emit e s) = lastHeartbeatTime s.
Proof.
  intros Hw Hc. repeat split.
  - apply heartbeats_silent. exact Hw.
  - rewrite trace_emit, connects_of_app, Hc. apply app_nil_r.
Qed.

(** An operator command sends no heartbeat, opens no connection and
    leaves the heartbeat timer alone. *)
Lemma handleUserCommand_frame (toFloat : string -> Q) (cmdLine : string) (s : State) :
  heartbeats (trace (handleUserCommand toFloat cmdLine s)) = heartbeats (trace s) /\
  connects_of client (trace (handleUserCommand toFloat cmdLine s)) =
    connects_of client (trace s) /\
  lastHeartbeatTime (handleUserCommand toFloat cmdLine s) = lastHeartbeatTime s.
Proof.
  unfold handleUserCommand. cbv zeta.
  destruct (String.eqb _ "volume").
  { unfold setVolume. destruct (_ || _).
    - apply print_frame; reflexivity.
    - cbv zeta.
      match goal with |- context [client_write [?p]] =>
        destruct (send_command_frame VOLUME_CMD_PREFIX p
                    (Serial_printf "Sending Volume: %.1f dB\n"
                       [ArgFloat (toFloat
                          (if indexOf " " cmdLine =? -1 then EmptyString
                           else substring_from cmdLine (indexOf " " cmdLine + 1)))] s)
                    eq_refl eq_refl) as (Hh & Hc & Ht)
      end.
      unfold send_command in Hh, Hc, Ht. rewrite Hh, Hc, Ht.
      apply print_frame; reflexivity. }
  destruct (String.eqb _ "dim").
  { destruct (String.eqb _ "on"); unfold setDim; cbv zeta;
      apply (send_command_frame DIM_CMD_PREFIX); reflexivity. }
  destruct (String.eqb _ "source").
  { unfold setSource. destruct (source_payload _).
    - apply (send_command_frame SOURCE_CMD_PREFIX); reflexivity.
    - apply print_frame; reflexivity. }
  destruct (String.eqb _ "status"); apply print_frame; reflexivity.
Qed.

Lemma serial_step_frame (toFloat : string -> Q) (inp : TickInput) (s : State) :
  heartbeats (trace (serial_step toFloat inp s)) = heartbeats (trace s) /\
  connects_of client (trace (serial_step toFloat inp s)) =
    connects_of client (trace s) /\
  lastHeartbeatTime (serial_step toFloat inp s) = lastHeartbeatTime s.
Proof.
  unfold serial_step. destruct (serial_line inp); [| repeat split].
  destruct (_ <? _)%nat; [| repeat split].
  apply handleUserCommand_frame.
Qed.

Lemma processIncomingPackets_frame (s : State) :
  heartbeats (trace (processIncomingPackets s)) = heartbeats (trace s) /\
  connects_of client (trace (processIncomingPackets s)) =
    connects_of client (trace s) /\
  lastHeartbeatTime (processIncomingPackets s) = lastHeartbeatTime s.
Proof.
  unfold processIncomingPackets, heartbeats.
  destruct (drain_frame (length (inbound s)) s) as (Hw & Hc & Ht & _).
  rewrite Hw, Hc, Ht. repeat split.
Qed.

(** In the Ready state [loop] runs its three steps. *)
Lemma loop_ready (toFloat : string -> Q) (inp : TickInput) (s : State) :
  deviceFound s = true -> isConnected s = true -> link_up s = true ->
  loop toFloat inp s =
  s |> heartbeat_step inp |> processIncomingPackets |> serial_step toFloat inp.
Proof.
  intros Hf Hc Hl. unfold loop. rewrite Hf, Hl. cbn [negb andb].
  rewrite Hc. reflexivity.
Qed.

(** No tick calls [client.connect]. *)
Lemma loop_never_connects (toFloat : string -> Q) (inp : TickInput) (s : State) :
  connects_of client (trace (loop toFloat inp s)) = connects_of client (trace s).
Proof.
  unfold loop. destruct (deviceFound s); [| reflexivity]. cbn [negb].
  assert (Hrest : forall st,
    connects_of client
      (trace (if negb (isConnected st) then st
              else st |> heartbeat_step inp |> processIncomingPackets
                      |> serial_step toFloat inp))
    = connects_of client (trace st)).
  { intros st. destruct (isConnected st); [| reflexivity]. cbn [negb].
    destruct (serial_step_frame toFloat inp
                (processIncomingPackets (heartbeat_step inp st))) as (_ & -> & _).
    destruct (processIncomingPackets_frame (heartbeat_step inp st)) as (_ & -> & _).
    unfold heartbeat_step. destruct (_ >? _); [| reflexivity].
    unfold sendHeartbeat. destruct (link_up st); [| reflexivity].
    cbn [trace set_lastHeartbeatTime]. unfold client_write.
    rewrite trace_emit, connects_of_app. apply app_nil_r. }
  destruct (negb (link_up s) && isConnected s).
  - rewrite Hrest. unfold client_stop, Serial_println.
    cbn [trace emit set_trace set_inbound set_link_up set_isConnected].
    rewrite !connects_of_app. cbn [connects_of]. rewrite !app_nil_r. reflexivity.
  - apply Hrest.
Qed.

(** C5: in the Ready state, a tick that finds more than the heartbeat
    interval (10 seconds) elapsed since the last heartbeat writes exactly
    one heartbeat frame, the bytes 00 00 00 05 04, and resets the timer; a
    tick within the interval writes no heartbeat and keeps the timer. *)
Theorem tick_heartbeat (toFloat : string -> Q) (inp : TickInput) (s : State)
  (Hfound : deviceFound s = true) (Hconn : isConnected s = true)
  (Hup : link_up s = true) :
  HEARTBEAT_PACKET = [0x00; 0x00; 0x00; 0x05; 0x04] /\
  HEARTBEAT_INTERVAL = 10 * 1000 /\
  (HEARTBEAT_INTERVAL < wrap32 (millis_check inp - lastHeartbeatTime s) ->
     heartbeats (trace (loop toFloat inp s)) = S (heartbeats (trace s)) /\
     lastHeartbeatTime (loop toFloat inp s) = millis_reset inp) /\
  (wrap32 (millis_check inp - lastHeartbeatTime s) <= HEARTBEAT_INTERVAL ->
     heartbeats (trace (loop toFloat inp s)) = heartbeats (trace s) /\
     lastHeartbeatTime (loop toFloat inp s) = lastHeartbeatTime s).
Proof.
  split; [reflexivity |]. split; [reflexivity |].
  rewrite (loop_ready toFloat inp s Hfound Hconn Hup).
  destruct (serial_step_frame toFloat inp
              (processIncomingPackets (heartbeat_step inp s))) as (-> & _ & ->).
  destruct (processIncomingPackets_frame (heartbeat_step inp s)) as (-> & _ & ->).
  unfold heartbeat_step. split; intros Hel.
  - replace (_ >? _) with true by (symmetry; apply Z.gtb_lt; exact Hel).
    unfold sendHeartbeat. rewrite Hup. split; [| reflexivity].
    cbn [trace set_lastHeartbeatTime]. apply heartbeats_write_heartbeat.
  - replace (_ >? _) with false
      by (symmetry; rewrite Z.gtb_ltb; apply Z.ltb_ge; exact Hel).
    split; reflexivity.
Qed.

Lemma tick_heartbeat_witness :
  heartbeats
    (trace (loop decimal_toFloat (MkTick 10001 10002 None) ready_state)) = 1%nat /\
  lastHeartbeatTime
    (loop decimal_toFloat (MkTick 10001 10002 None) ready_state) = 10002 /\
  heartbeats
    (trace (loop decimal_toFloat (MkTick 10000 10000 None) ready_state)) = 0%nat.
Proof.
  destruct (tick_heartbeat decimal_toFloat (MkTick 10001 10002 None) ready_state
              eq_refl eq_refl eq_refl) as (_ & _ & Hdue & _).
  destruct (tick_heartbeat decimal_toFloat (MkTick 10000 10000 None) ready_state
              eq_refl eq_refl eq_refl) as (_ & _ & _ & Hnot).
  destruct Hdue as (Hh & Ht); [reflexivity |].
  destruct Hnot as (Hn & _); [discriminate |].
  exact (conj Hh (conj Ht Hn)).
Defined.

(** C6 as stated fails: five pending bytes equal to the heartbeat frame
    are no longer than the heartbeat prefix, and the buffer they are read
    into is classified as a heartbeat, not as unrecognized. *)
Lemma heartbeat_sized_buffer_recognized :
  sizeof HEARTBEAT_PACKET <= sizeof HEARTBEAT_PACKET /\
  snd (client_read (set_inbound HEARTBEAT_PACKET ready_state)) =
    sizeof HEARTBEAT_PACKET /\
  classify
    (rxBuffer (fst (client_read (set_inbound HEARTBEAT_PACKET ready_state))))
    (snd (client_read (set_inbound HEARTBEAT_PACKET ready_state)))
  <> Unrecognized.
Proof.
  repeat split.
  - apply Z.le_refl.
  - vm_compute. discriminate.
Qed.

(** C6, amended: pending input of at most ten bytes, the length of the
    prefixes of the value-carrying frames, is consumed whole by one read
    and leaves the device state unchanged; a buffer is taken for a volume,
    dim or source frame only when more than ten bytes were read, so that
    the value byte exists.  (The heartbeat test has no length condition.) *)
Theorem short_buffer_dropped (s : State)
  (Hlen : (length (inbound s) <= 10)%nat) :
  device_state (processIncomingPackets s) = device_state s /\
  inbound (processIncomingPackets s) = [] /\
  (forall buf len,
      classify buf len <> Heartbeat -> classify buf len <> Unrecognized ->
      sizeof VOLUME_ACK_PREFIX < len).
Proof.
  split; [| split].
  - destruct (inbound s) as [| b rest] eqn:E.
    + unfold processIncomingPackets. rewrite E. reflexivity.
    + rewrite process_single_read
        by (rewrite E; first [discriminate | unfold RX_SIZE; lia]).
      unfold after_read, client_read. cbv zeta beta iota.
      match goal with |- context [classify ?buf ?len] =>
        assert (Hl : len <= 10) by (rewrite length_firstn, E; lia);
        destruct (classify_short buf len Hl) as [-> | ->]
      end; reflexivity.
  - destruct (inbound s) as [| b rest] eqn:E.
    + unfold processIncomingPackets. rewrite E. exact E.
    + rewrite process_single_read
        by (rewrite E; first [discriminate | unfold RX_SIZE; lia]).
      unfold after_read, client_read. cbv zeta beta iota.
      match goal with |- context [classify ?buf ?len] =>
        destruct (classify buf len)
      end;
        rewrite ?apply_frame_inbound; cbn [inbound set_inbound set_rxBuffer];
        apply skipn_all2; rewrite E; unfold RX_SIZE; lia.
  - intros buf len Hh Hu.
    exact (proj1 (classify_value_frame buf len Hh Hu)).
Qed.

Lemma short_buffer_dropped_witness :
  device_state
    (processIncomingPackets (set_inbound VOLUME_ACK_PREFIX ready_state)) =
  device_state ready_state.
Proof.
  refine (proj1 (short_buffer_dropped
                   (set_inbound VOLUME_ACK_PREFIX ready_state) _)).
  cbn. lia.
Defined.

(** C7: the inbound loop is meant to run until nothing is pending, but a
    read that starts with the heartbeat bytes leaves it at once.  With 267
    bytes pending (a heartbeat, 251 zero bytes and a volume
    acknowledgement for -10.0 dB) the tick reads 256 bytes and stops: the
    acknowledgement stays unread and the volume is not updated in that
    tick; only the following tick reads it. *)
Theorem heartbeat_read_ends_drain :
  inbound (loop decimal_toFloat (MkTick 5000 5000 None)
             (set_inbound heartbeat_then_ack ready_state))
    = VOLUME_ACK_PREFIX ++ [0xAC] /\
  device_state (loop decimal_toFloat (MkTick 5000 5000 None)
                  (set_inbound heartbeat_then_ack ready_state))
    = device_state ready_state /\
  (currentVolume
     (loop decimal_toFloat (MkTick 5010 5010 None)
        (loop decimal_toFloat (MkTick 5000 5000 None)
           (set_inbound heartbeat_then_ack ready_state)))
   == -10)%Q.
Proof.
  split; [| split]; vm_compute; reflexivity.
Qed.

(** Without a leading heartbeat the same amount of input is read to the
    end within one tick. *)
Example long_input_drained :
  inbound (loop decimal_toFloat (MkTick 5000 5000 None)
             (set_inbound (repeat 1 256 ++ VOLUME_ACK_PREFIX ++ [0xAC])
                ready_state)) = [] /\
  (currentVolume
     (loop decimal_toFloat (MkTick 5000 5000 None)
        (set_inbound (repeat 1 256 ++ VOLUME_ACK_PREFIX ++ [0xAC])%Z
           ready_state)) == -10)%Q.
Proof.
  split; vm_compute; reflexivity.
Qed.

(** The frames of the specification's examples. *)
Example volume_ack_frame :
  (currentVolume
     (processIncomingPackets
        (set_inbound
           [0x00; 0x00; 0x00; 0x0b; 0x04; 0x03; 0x12; 0x01; 0x02; 0x00; 0xAC]%Z
           ready_state)) == -10)%Q.
Proof. vm_compute. reflexivity. Qed.

Example dim_ack_frame :
  isDimmed
    (processIncomingPackets
       (set_inbound [0x00; 0x00; 0x00; 0x0b; 0x04; 0x05; 0x13; 0x01; 0x02; 0x00; 0x01]
          ready_state)) = true.
Proof. vm_compute. reflexivity. Qed.

(** C9 as stated fails: a tick in the Disconnected state, with the
    discovered address still known, makes no connection attempt. *)
Lemma disconnected_tick_no_connect :
  deviceFound disconnected_state = true /\
  isConnected disconnected_state = false /\
  ~ (exists ip port,
        In (Connect client ip port)
           (trace (loop decimal_toFloat (MkTick 60000 60000 None)
                     disconnected_state))).
Proof.
  split; [reflexivity |]. split; [reflexivity |].
  intros (ip & port & H). vm_compute in H. exact H.
Qed.

(** C9, amended: once the session is Disconnected the ticks do nothing;
    the state, and with it the effect log, stays as it is however many
    ticks follow, and no tick in any state calls connect.  The connection
    is made again only by restarting the controller. *)
Theorem disconnected_ticks_idle (toFloat : string -> Q)
  (inputs : list TickInput) (s : State) (Hdis : isConnected s = false) :
  run_ticks toFloat inputs s = s /\
  (forall st inp,
      connects_of client (trace (loop toFloat inp st)) =
      connects_of client (trace st)).
Proof.
  split.
  - induction inputs as [| inp inputs IH]; [reflexivity |].
    unfold run_ticks in *. cbn [fold_left].
    replace (loop toFloat inp s) with s; [exact IH |].
    unfold loop. destruct (deviceFound s); [| reflexivity].
    rewrite Hdis, andb_false_r. cbn [negb]. rewrite Hdis. reflexivity.
  - intros st inp. apply loop_never_connects.
Qed.

Lemma disconnected_ticks_idle_witness :
  run_ticks decimal_toFloat
    [MkTick 60000 60000 None; MkTick 60010 60010 (Some "volume -20"%string)]
    disconnected_state = disconnected_state.
Proof.
  exact (proj1 (disconnected_ticks_idle decimal_toFloat
                  [MkTick 60000 60000 None;
                   MkTick 60010 60010 (Some "volume -20"%string)]
                  disconnected_state eq_refl)).
Defined.

(** A tick that finds the transport closed reports it, marks the session
    disconnected and closes the handle; the device state is kept. *)
Lemma loop_connection_lost (toFloat : string -> Q) (inp : TickInput) (s : State) :
  deviceFound s = true -> isConnected s = true -> link_up s = false ->
  loop toFloat inp s =
    s |> Serial_println "[Error] Connection lost." |> set_isConnected false
      |> client_stop.
Proof.
  intros Hf Hc Hl. unfold loop. rewrite Hf, Hl, Hc. reflexivity.
Qed.

(** ** The discovery sweep *)

Lemma candidates_from_step (local : IPAddress) (i : Z) (k : nat) :
  candidates_from local i (S k) =
  if ip_eqb (set_ip3 local i) local then candidates_from local (i + 1) k
  else set_ip3 local i :: candidates_from local (i + 1) k.
Proof.
  unfold candidates_from. cbn [Zseq map filter].
  destruct (ip_eqb (set_ip3 local i) local); reflexivity.
Qed.

Lemma ip_eqb_eq (a b : IPAddress) : ip_eqb a b = true <-> a = b.
Proof.
  unfold ip_eqb. rewrite !andb_true_iff, !Z.eqb_eq.
  destruct a, b; cbn. split.
  - intros [[[-> ->] ->] ->]. reflexivity.
  - intros H. injection H as -> -> -> ->. auto.
Qed.

Lemma Zseq_In (x i : Z) (k : nat) : In x (Zseq i k) <-> i <= x < i + Z.of_nat k.
Proof.
  revert i. induction k as [| k IH]; intros i; cbn [Zseq In].
  - lia.
  - rewrite IH. lia.
Qed.

Lemma candidates_from_In (local t : IPAddress) (i : Z) (k : nat) :
  In t (candidates_from local i k) <->
  exists j, i <= j < i + Z.of_nat k /\ t = set_ip3 local j /\ t <> local.
Proof.
  unfold candidates_from. rewrite filter_In, in_map_iff. split.
  - intros ((j & <- & Hj) & Hne). exists j. apply Zseq_In in Hj.
    repeat split; try lia.
    intros E. apply ip_eqb_eq in E. rewrite E in Hne. discriminate.
  - intros (j & Hj & -> & Hne). split.
    + exists j. split; [reflexivity | apply Zseq_In; lia].
    + destruct (ip_eqb (set_ip3 local j) local) eqn:E; [| reflexivity].
      apply ip_eqb_eq in E. contradiction.
Qed.

Lemma candidates_from_sorted (local : IPAddress) (i : Z) (k : nat) :
  StronglySorted Z.lt (map ip_to_Z (candidates_from local i k)).
Proof.
  revert i. induction k as [| k IH]; intros i.
  - constructor.
  - rewrite candidates_from_step.
    destruct (ip_eqb (set_ip3 local i) local); [apply IH |].
    cbn [map]. constructor; [apply IH |].
    apply Forall_forall. intros z Hz.
    apply in_map_iff in Hz. destruct Hz as (t & <- & Ht).
    apply candidates_from_In in Ht. destruct Ht as (j & Hj & -> & _).
    unfold ip_to_Z, set_ip3. cbn. lia.
Qed.

(** The loop probes the candidates in order up to the first confirmed one
    and records that one; without a confirmed candidate it probes them all
    and leaves the result as it was. *)
Lemma scan_loop_spec (net : Network) (local : IPAddress) (k : nat) :
  forall (i : Z) (s : State),
    connects_of scanClient (trace (scan_loop net local k i s)) =
      connects_of scanClient (trace s) ++
      take_through (confirmed net) (candidates_from local i k) /\
    match find (confirmed net) (candidates_from local i k) with
    | Some t =>
        deviceFound (scan_loop net local k i s) = true /\
        dp564Ip (scan_loop net local k i s) = t
    | None =>
        deviceFound (scan_loop net local k i s) = deviceFound s /\
        dp564Ip (scan_loop net local k i s) = dp564Ip s /\
        exists before,
          trace (scan_loop net local k i s) =
          before ++ [Print "\nScan complete."]
    end.
Proof.
  induction k as [| k IH]; intros i s.
  - cbn [scan_loop candidates_from Zseq map filter take_through find].
    unfold Serial_println. rewrite trace_emit, connects_of_app.
    cbn [connects_of]. split; [reflexivity |].
    split; [reflexivity |]. split; [reflexivity |].
    exists (trace s). reflexivity.
  - rewrite candidates_from_step. cbn [scan_loop].
    destruct (ip_eqb (set_ip3 local i) local); [apply IH |].
    cbn [take_through find]. unfold confirmed at 1 3. unfold getMacFromIp.
    set (target := set_ip3 local i).
    set (s1 := if i mod 10 =? 0 then Serial_print "." s else s).
    assert (H1 : connects_of scanClient (trace s1) = connects_of scanClient (trace s)
                 /\ deviceFound s1 = deviceFound s /\ dp564Ip s1 = dp564Ip s).
    { subst s1. destruct (i mod 10 =? 0); [| repeat split].
      unfold Serial_print. rewrite trace_emit, connects_of_app.
      cbn [connects_of]. rewrite app_nil_r. repeat split. }
    destruct H1 as (Hc1 & Hf1 & Hd1).
    destruct (accepts net target); cbn [andb].
    + destruct (etharp_find_addr net target) as [mac |].
      * destruct (isDolbyMac mac).
        -- unfold Serial_println, Serial_printf.
           cbn [trace emit set_trace set_dp564Ip set_deviceFound deviceFound dp564Ip].
           rewrite !connects_of_app, Hc1. cbn [connects_of].
           rewrite !app_nil_r. repeat split.
        -- match goal with |- context [scan_loop net local k (i + 1) ?st] =>
             specialize (IH (i + 1) st); destruct IH as (IHc & IHr);
             rewrite IHc
           end.
           unfold Serial_println, Serial_printf.
           cbn [trace emit set_trace deviceFound dp564Ip] in *.
           rewrite !connects_of_app, Hc1. cbn [connects_of].
           rewrite ?app_nil_r, <- ?app_assoc. split; [reflexivity |].
           destruct (find _ _); rewrite <- ?Hf1, <- ?Hd1; exact IHr.
      * match goal with |- context [scan_loop net local k (i + 1) ?st] =>
          specialize (IH (i + 1) st); destruct IH as (IHc & IHr);
          rewrite IHc
        end.
        unfold Serial_println, Serial_printf.
        cbn [trace emit set_trace deviceFound dp564Ip] in *.
        rewrite !connects_of_app, Hc1. cbn [connects_of].
        rewrite ?app_nil_r, <- ?app_assoc. split; [reflexivity |].
        destruct (find _ _); rewrite <- ?Hf1, <- ?Hd1; exact IHr.
    + match goal with |- context [scan_loop net local k (i + 1) ?st] =>
        specialize (IH (i + 1) st); destruct IH as (IHc & IHr);
        rewrite IHc
      end.
      cbn [trace emit set_trace deviceFound dp564Ip] in *.
      rewrite !connects_of_app, Hc1. cbn [connects_of].
      rewrite ?app_nil_r, <- ?app_assoc. split; [reflexivity |].
      destruct (find _ _); rewrite <- ?Hf1, <- ?Hd1; exact IHr.
Qed.

Lemma take_through_find {A : Type} (p : A -> bool) (l : list A) :
  match find p l with
  | Some t =>
      p t = true /\
      exists pre post,
        l = pre ++ t :: post /\ take_through p l = pre ++ [t] /\
        Forall (fun x => p x = false) pre
  | None => take_through p l = l /\ Forall (fun x => p x = false) l
  end.
Proof.
  induction l as [| x l IH]; cbn [find take_through].
  - split; constructor.
  - destruct (p x) eqn:E.
    + split; [exact E |]. exists [], l. repeat split. constructor.
    + destruct (find p l) as [t |].
      * destruct IH as (Ht & pre & post & -> & Htt & Hpre).
        split; [exact Ht |]. exists (x :: pre), post.
        rewrite Htt. repeat split. constructor; assumption.
      * destruct IH as (-> & Hall). split; [reflexivity |].
        constructor; assumption.
Qed.

(** C3: the sweep probes the host addresses .1 to .254 of the local /24 in
    ascending numeric order, the local address left out.  A candidate that
    refuses the connection, or whose hardware address is not found or does
    not satisfy the classifier, is passed over.  The sweep stops at the
    first candidate that accepts the connection and whose hardware address
    satisfies the classifier: it is recorded as the result and no later
    candidate is probed.  When no candidate is confirmed every candidate is
    probed, the result stays as it was (not found) and the sweep ends with
    its completion message. *)
Theorem scan_sweep (net : Network) (s : State) :
  StronglySorted Z.lt (map ip_to_Z (candidates (localIP net))) /\
  (forall t, In t (candidates (localIP net)) <->
             exists j, 1 <= j <= 254 /\ t = set_ip3 (localIP net) j /\
                       t <> localIP net) /\
  match find (confirmed net) (candidates (localIP net)) with
  | Some t =>
      deviceFound (scanForDolbyDevice net s) = true /\
      dp564Ip (scanForDolbyDevice net s) = t /\
      confirmed net t = true /\
      exists pre post,
        candidates (localIP net) = pre ++ t :: post /\
        Forall (fun x => confirmed net x = false) pre /\
        connects_of scanClient (trace (scanForDolbyDevice net s)) =
          connects_of scanClient (trace s) ++ pre ++ [t]
  | None =>
      deviceFound (scanForDolbyDevice net s) = deviceFound s /\
      dp564Ip (scanForDolbyDevice net s) = dp564Ip s /\
      Forall (fun x => confirmed net x = false) (candidates (localIP net)) /\
      connects_of scanClient (trace (scanForDolbyDevice net s)) =
        connects_of scanClient (trace s) ++ candidates (localIP net) /\
      exists before,
        trace (scanForDolbyDevice net s) = before ++ [Print "\nScan complete."]
  end.
Proof.
  split; [apply candidates_from_sorted |].
  split.
  { intros t. unfold candidates. rewrite candidates_from_In.
    split; intros (j & Hj & H); exists j; (split; [lia | exact H]). }
  unfold scanForDolbyDevice, candidates.
  set (s0 := Serial_println "Scanning subnet for Dolby devices on port 4444..." s).
  assert (H0 : connects_of scanClient (trace s0) = connects_of scanClient (trace s)).
  { subst s0. unfold Serial_println. rewrite trace_emit, connects_of_app.
    apply app_nil_r. }
  destruct (scan_loop_spec net (localIP net) 254 1 s0) as (Hc & Hr).
  pose proof (take_through_find (confirmed net)
                (candidates_from (localIP net) 1 254)) as Htf.
  rewrite H0 in Hc.
  destruct (find (confirmed net) (candidates_from (localIP net) 1 254)) as [t |].
  - destruct Hr as (Hf & Hd). destruct Htf as (Ht & pre & post & Hl & Htt & Hpre).
    split; [exact Hf |]. split; [exact Hd |]. split; [exact Ht |].
    exists pre, post. split; [exact Hl |]. split; [exact Hpre |].
    rewrite Hc, Htt. reflexivity.
  - destruct Hr as (Hf & Hd & Hend). destruct Htf as (Htt & Hall).
    split; [exact Hf |]. split; [exact Hd |]. split; [exact Hall |].
    split; [rewrite Hc, Htt; reflexivity | exact Hend].
Qed.

(** A sweep of the mock subnet stops at .91: the addresses .1 to .91 are
    probed, .17 left out, and .92 is never reached. *)
Example mock_sweep_finds_device :
  dp564Ip (scanForDolbyDevice mock_network initial_state) = MkIp 192 168 4 91 /\
  deviceFound (scanForDolbyDevice mock_network initial_state) = true /\
  map ip3 (connects_of scanClient
             (trace (scanForDolbyDevice mock_network initial_state))) =
    Zseq 1 16 ++ Zseq 18 74.
Proof. vm_compute. repeat split. Qed.

Example silent_sweep_not_found :
  deviceFound (scanForDolbyDevice silent_network initial_state) = false /\
  length (connects_of scanClient
            (trace (scanForDolbyDevice silent_network initial_state))) = 253%nat.
Proof. vm_compute. repeat split. Qed.

(** Start-up on the mock subnet: the device is found, the connection is
    made once and the two handshake messages are written. *)
Example startup_connects :
  isConnected (setup true mock_network true 1200 initial_state) = true /\
  connects_of client (trace (setup true mock_network true 1200 initial_state)) =
    [MkIp 192 168 4 91] /\
  writes_of client (trace (setup true mock_network true 1200 initial_state)) =
    [HANDSHAKE_MSG_1; HANDSHAKE_MSG_2].
Proof. vm_compute. repeat split. Qed.

(** * Further properties of the sketches *)

(** ** Inbound frames in detail *)

Lemma memcmp_eq_nil (buf : list Z) : memcmp_eq buf [] = true.
Proof. destruct buf; reflexivity. Qed.

(** One read of a known prefix, any bytes, and a last byte [b]: the branch
    of the prefix is taken and it sees [b] as the value. *)
Lemma process_value_frame (kind : FrameKind) (prefix middle : list Z) (b : Z)
  (s : State) :
  In (kind, prefix) value_frames -> (length middle <= 245)%nat ->
  processIncomingPackets (set_inbound (prefix ++ middle ++ [b]) s) =
    apply_frame kind (Z.of_nat (length (prefix ++ middle ++ [b])))
      (s |> set_inbound []
         |> set_rxBuffer (read_into (rxBuffer s) (prefix ++ middle ++ [b]))) /\
  last_byte (read_into (rxBuffer s) (prefix ++ middle ++ [b]))
            (Z.of_nat (length (prefix ++ middle ++ [b]))) = b.
Proof.
  intros Hin Hmid.
  assert (Hp : length prefix = 10%nat).
  { destruct Hin as [E | [E | [E | [E | []]]]]; injection E as _ <-; reflexivity. }
  assert (Hlen : length (prefix ++ middle ++ [b]) = (10 + length middle + 1)%nat).
  { rewrite !length_app, Hp. cbn [length]. lia. }
  split.
  - rewrite process_single_read.
    + unfold after_read, client_read. cbv zeta beta iota.
      cbn [inbound set_inbound set_rxBuffer rxBuffer].
      rewrite (firstn_all2 (n := RX_SIZE)) by (rewrite Hlen; unfold RX_SIZE; lia).
      rewrite (skipn_all2 (n := RX_SIZE)) by (rewrite Hlen; unfold RX_SIZE; lia).
      assert (Hc : classify (read_into (rxBuffer s) (prefix ++ middle ++ [b]))
                     (Z.of_nat (length (prefix ++ middle ++ [b]))) = kind).
      { unfold classify.
        change (sizeof VOLUME_DEVICE_UPDATE_PREFIX) with 10.
        change (sizeof VOLUME_ACK_PREFIX) with 10.
        change (sizeof DIM_ACK_PREFIX) with 10.
        change (sizeof SOURCE_ACK_PREFIX) with 10.
        replace (Z.of_nat (length (prefix ++ middle ++ [b])) >? 10) with true
          by (symmetry; rewrite Z.gtb_ltb; apply Z.ltb_lt; rewrite Hlen; lia).
        unfold read_into.
        destruct Hin as [E | [E | [E | [E | []]]]]; injection E as <- <-;
          cbn; rewrite memcmp_eq_nil; reflexivity. }
      rewrite Hc.
      destruct Hin as [E | [E | [E | [E | []]]]]; injection E as <- _;
        reflexivity.
    + cbn [inbound set_inbound]. destruct prefix; discriminate.
    + cbn [inbound set_inbound]. rewrite Hlen. unfold RX_SIZE. lia.
  - unfold last_byte, read_into.
    replace (Z.to_nat (Z.of_nat (length (prefix ++ middle ++ [b])) - 1))
      with (length (prefix ++ middle)) by (rewrite Hlen, length_app, Hp; lia).
    rewrite app_nth1 by (rewrite Hlen, length_app, Hp; lia).
    rewrite (app_assoc prefix middle [b]).
    apply nth_middle.
Qed.

(** X1: A read that starts with a volume prefix sets the volume from the last
    byte of the whole read, whatever lies between (a second frame in the
    same read, for one), and leaves dim and source alone. *)
Theorem volume_frame_takes_last_byte (prefix middle : list Z) (b : Z) (s : State)
  (Hprefix : prefix = VOLUME_ACK_PREFIX \/ prefix = VOLUME_DEVICE_UPDATE_PREFIX)
  (Hmiddle : (length middle <= 245)%nat) :
  device_state (processIncomingPackets (set_inbound (prefix ++ middle ++ [b]) s))
  = (volume_of_byte b, isDimmed s, currentSource s).
Proof.
  destruct Hprefix as [-> | ->].
  - destruct (process_value_frame VolumeAck VOLUME_ACK_PREFIX middle b s)
      as (-> & Hb); [right; left; reflexivity | exact Hmiddle |].
    rewrite apply_frame_device_state. cbv zeta.
    cbn [rxBuffer set_rxBuffer set_inbound isDimmed currentSource].
    rewrite Hb. reflexivity.
  - destruct (process_value_frame VolumeUnsolicitedUpdate
                VOLUME_DEVICE_UPDATE_PREFIX middle b s)
      as (-> & Hb); [left; reflexivity | exact Hmiddle |].
    rewrite apply_frame_device_state. cbv zeta.
    cbn [rxBuffer set_rxBuffer set_inbound isDimmed currentSource].
    rewrite Hb. reflexivity.
Qed.

Lemma volume_frame_takes_last_byte_witness :
  device_state
    (processIncomingPackets
       (set_inbound (VOLUME_ACK_PREFIX ++ (0xAC :: DIM_ACK_PREFIX) ++ [0x01])
          ready_state))
  = (volume_of_byte 0x01, false, "aes1"%string).
Proof.
  refine (volume_frame_takes_last_byte VOLUME_ACK_PREFIX (0xAC :: DIM_ACK_PREFIX)
            0x01 ready_state (or_introl eq_refl) _).
  cbn. lia.
Defined.

(** X2: The decoded volume is stored as it comes: it lies in [-95, 0] exactly
    when the acknowledged byte lies in [2, 192]; nothing is clamped or
    refused. *)
Theorem volume_ack_not_clamped (b : Z) (s : State) :
  (-95 <= currentVolume
            (processIncomingPackets (set_inbound (VOLUME_ACK_PREFIX ++ [b]) s))
   /\ currentVolume
        (processIncomingPackets (set_inbound (VOLUME_ACK_PREFIX ++ [b]) s)) <= 0)%Q
  <-> 2 <= b <= 192.
Proof.
  rewrite volume_ack_sets_volume. unfold volume_of_byte. Qunfold. lia.
Qed.

(** X3: Dim round trip: the byte [setDim] sends, acknowledged by the
    appliance, sets [isDimmed] to the state that was asked for; volume and
    source are untouched. *)
Theorem dim_round_trip (state : bool) (s s' : State) :
  writes_of client (trace (setDim state s)) =
    writes_of client (trace s) ++
    [PRE_CMD; DIM_CMD_PREFIX; [if state then 0x01 else 0x00]] /\
  device_state
    (processIncomingPackets
       (set_inbound (DIM_ACK_PREFIX ++ [if state then 0x01 else 0x00]) s'))
  = (currentVolume s', state, currentSource s').
Proof.
  split.
  - unfold setDim, client_write, delay. cbv zeta.
    rewrite !trace_emit, !writes_of_app. cbn [writes_of].
    rewrite !app_nil_r, <- !app_assoc. reflexivity.
  - destruct (process_value_frame DimAck DIM_ACK_PREFIX []
                (if state then 0x01 else 0x00) s')
      as (E & Hb); [right; right; left; reflexivity | cbn; lia |].
    cbn [app] in E, Hb. cbn [app]. rewrite E.
    rewrite apply_frame_device_state. cbv zeta.
    cbn [rxBuffer set_rxBuffer set_inbound isDimmed currentSource currentVolume].
    rewrite Hb. destruct state; reflexivity.
Qed.

(** X4: Source round trip: for a name [setSource] accepts, in any letter case,
    the byte it sends, acknowledged by the appliance, sets [currentSource]
    to the name in lower case. *)
Theorem source_round_trip (src : string) (p : Z) (s s' : State)
  (Hknown : source_payload (toLowerCase src) = Some p) :
  writes_of client (trace (setSource src s)) =
    writes_of client (trace s) ++ [PRE_CMD; SOURCE_CMD_PREFIX; [p]] /\
  device_state
    (processIncomingPackets (set_inbound (SOURCE_ACK_PREFIX ++ [p]) s'))
  = (currentVolume s', isDimmed s', toLowerCase src).
Proof.
  split.
  - unfold setSource. rewrite Hknown.
    unfold client_write, delay.
    rewrite !trace_emit, !writes_of_app. cbn [writes_of].
    rewrite !app_nil_r, <- !app_assoc. reflexivity.
  - destruct (process_value_frame SourceAck SOURCE_ACK_PREFIX [] p s')
      as (E & Hb); [right; right; right; left; reflexivity | cbn; lia |].
    cbn [app] in E, Hb. cbn [app]. rewrite E.
    rewrite apply_frame_device_state. cbv zeta.
    cbn [rxBuffer set_rxBuffer set_inbound isDimmed currentSource currentVolume].
    rewrite Hb.
    revert Hknown. unfold source_payload.
    destruct (String.eqb (toLowerCase src) "aes1") eqn:E1.
    { apply String.eqb_eq in E1. intros [= <-]. rewrite E1. reflexivity. }
    destruct (String.eqb (toLowerCase src) "aes2") eqn:E2.
    { apply String.eqb_eq in E2. intros [= <-]. rewrite E2. reflexivity. }
    destruct (String.eqb (toLowerCase src) "optical") eqn:E3.
    { apply String.eqb_eq in E3. intros [= <-]. rewrite E3. reflexivity. }
    destruct (String.eqb (toLowerCase src) "streaming") eqn:E4.
    { apply String.eqb_eq in E4. intros [= <-]. rewrite E4. reflexivity. }
    discriminate.
Qed.

Lemma source_round_trip_witness :
  writes_of client (trace (setSource "Optical" ready_state)) =
    [PRE_CMD; SOURCE_CMD_PREFIX; [0x02]] /\
  device_state
    (processIncomingPackets (set_inbound (SOURCE_ACK_PREFIX ++ [0x02]) ready_state))
  = (currentVolume ready_state, isDimmed ready_state, "optical"%string).
Proof.
  exact (source_round_trip "Optical" 0x02 ready_state ready_state eq_refl).
Defined.

(** X5: A source acknowledgement whose value is none of 0, 1, 2, 3 leaves the
    whole device state as it was. *)
Theorem source_ack_unknown_value (middle : list Z) (b : Z) (s : State)
  (Hmiddle : (length middle <= 245)%nat)
  (Hvalue : b <> 0x00 /\ b <> 0x01 /\ b <> 0x02 /\ b <> 0x03) :
  device_state
    (processIncomingPackets (set_inbound (SOURCE_ACK_PREFIX ++ middle ++ [b]) s))
  = device_state s.
Proof.
  destruct (process_value_frame SourceAck SOURCE_ACK_PREFIX middle b s)
    as (-> & Hb); [right; right; right; left; reflexivity | exact Hmiddle |].
  rewrite apply_frame_device_state. cbv zeta.
  cbn [rxBuffer set_rxBuffer set_inbound isDimmed currentSource currentVolume].
  rewrite Hb. unfold source_after, device_state.
  destruct Hvalue as (H0 & H1 & H2 & H3).
  rewrite (proj2 (Z.eqb_neq b 0x00) H0), (proj2 (Z.eqb_neq b 0x01) H1),
          (proj2 (Z.eqb_neq b 0x02) H2), (proj2 (Z.eqb_neq b 0x03) H3).
  reflexivity.
Qed.

Lemma source_ack_unknown_value_witness :
  device_state
    (processIncomingPackets (set_inbound (SOURCE_ACK_PREFIX ++ [] ++ [0x07])
                               ready_state))
  = device_state ready_state.
Proof.
  refine (source_ack_unknown_value [] 0x07 ready_state _ _).
  - cbn. lia.
  - repeat split; discriminate.
Defined.

Lemma classify_heartbeat (buf : list Z) (len : Z) :
  classify buf len = Heartbeat <-> memcmp_eq buf HEARTBEAT_PACKET = true.
Proof.
  unfold classify. destruct (memcmp_eq buf HEARTBEAT_PACKET).
  - split; reflexivity.
  - split; [| discriminate].
    repeat match goal with |- context [if ?c then _ else _] => destruct c end;
      discriminate.
Qed.

Lemma apply_frame_rxBuffer (kind : FrameKind) (len : Z) (s : State) :
  rxBuffer (apply_frame kind len s) = rxBuffer s.
Proof. destruct kind; reflexivity. Qed.

Lemma drain_only_prints (fuel : nat) : forall s : State,
  exists new,
    trace (drain fuel s) = trace s ++ new /\ Forall is_printf new /\
    isConnected (drain fuel s) = isConnected s /\
    deviceFound (drain fuel s) = deviceFound s /\
    link_up (drain fuel s) = link_up s /\
    lastHeartbeatTime (drain fuel s) = lastHeartbeatTime s /\
    dp564Ip (drain fuel s) = dp564Ip s.
Proof.
  assert (Hsame : forall st : State,
    exists new, trace st = trace st ++ new /\ Forall is_printf new /\
      isConnected st = isConnected st /\ deviceFound st = deviceFound st /\
      link_up st = link_up st /\ lastHeartbeatTime st = lastHeartbeatTime st /\
      dp564Ip st = dp564Ip st).
  { intros st. exists []. rewrite app_nil_r. repeat split. constructor. }
  induction fuel as [| fuel IH]; intros s; [apply Hsame |].
  cbn [drain]. destruct (client_available s); [| apply Hsame].
  unfold client_read. cbv zeta beta iota.
  destruct (_ <=? 0); [exists []; rewrite app_nil_r; repeat split; constructor |].
  match goal with |- context [classify ?b ?l] => destruct (classify b l) end;
    try (exists []; rewrite app_nil_r; repeat split; constructor);
    match goal with |- context [drain fuel ?st] =>
      destruct (IH st) as (new & Ht & Hp & Hi & Hd & Hl & Hh & Ha);
      rewrite Ht, Hi, Hd, Hl, Hh, Ha
    end;
    cbn [apply_frame]; unfold Serial_printf; rewrite ?trace_emit;
    cbn [trace set_currentVolume set_isDimmed set_currentSource set_inbound
         set_rxBuffer];
    rewrite <- ?app_assoc;
    eexists; (split; [reflexivity |]); (split; [| repeat split]);
    try exact Hp;
    (constructor; [eexists; eexists; reflexivity | exact Hp]).
Qed.

(** X6: Handling inbound data only prints: it never writes to the transport,
    never connects, stops or pauses, and it keeps the session flags, the
    heartbeat timer and the target address. *)
Theorem processIncomingPackets_only_prints (s : State) :
  exists new,
    trace (processIncomingPackets s) = trace s ++ new /\ Forall is_printf new /\
    isConnected (processIncomingPackets s) = isConnected s /\
    deviceFound (processIncomingPackets s) = deviceFound s /\
    link_up (processIncomingPackets s) = link_up s /\
    lastHeartbeatTime (processIncomingPackets s) = lastHeartbeatTime s /\
    dp564Ip (processIncomingPackets s) = dp564Ip s.
Proof. apply drain_only_prints. Qed.

Lemma drain_ends (fuel : nat) : forall s : State,
  (length (inbound s) <= fuel)%nat ->
  inbound (drain fuel s) = [] \/
  memcmp_eq (rxBuffer (drain fuel s)) HEARTBEAT_PACKET = true.
Proof.
  induction fuel as [| fuel IH]; intros s Hlen.
  - left. cbn [drain]. destruct (inbound s); [reflexivity | cbn [length] in Hlen; lia].
  - cbn [drain]. unfold client_available.
    destruct (inbound s) as [| b rest] eqn:E; [left; exact E |].
    unfold client_read. cbv zeta beta iota. rewrite E.
    assert (Hpos : (Z.of_nat (length (firstn RX_SIZE (b :: rest))) <=? 0) = false).
    { apply Z.leb_gt. rewrite length_firstn. cbn [length]. unfold RX_SIZE. lia. }
    rewrite Hpos.
    assert (Hless : (length (skipn RX_SIZE (b :: rest)) <= fuel)%nat).
    { rewrite length_skipn. cbn [length] in *. unfold RX_SIZE. lia. }
    match goal with |- context [classify ?buf ?l] =>
      destruct (classify buf l) eqn:C
    end;
      try (apply IH; rewrite apply_frame_inbound;
           cbn [inbound set_inbound set_rxBuffer]; exact Hless).
    right. apply classify_heartbeat in C.
    cbn [rxBuffer set_rxBuffer set_inbound]. exact C.
Qed.

(** X7: When inbound handling returns, either nothing is pending any more or
    the buffer of the last read starts with the heartbeat bytes: the
    heartbeat branch is the only way the loop leaves input unread. *)
Theorem drain_stops_only_at_heartbeat (s : State) :
  inbound (processIncomingPackets s) = [] \/
  memcmp_eq (rxBuffer (processIncomingPackets s)) HEARTBEAT_PACKET = true.
Proof. apply drain_ends. apply Nat.le_refl. Qed.

Lemma read_into_length (buf chunk : list Z) :
  (length chunk <= length buf)%nat -> length (read_into buf chunk) = length buf.
Proof.
  intros H. unfold read_into. rewrite length_app, length_skipn. lia.
Qed.

Lemma drain_rxBuffer_length (fuel : nat) : forall s : State,
  length (rxBuffer s) = RX_SIZE -> length (rxBuffer (drain fuel s)) = RX_SIZE.
Proof.
  induction fuel as [| fuel IH]; intros s Hbuf; [exact Hbuf |].
  cbn [drain]. destruct (client_available s); [| exact Hbuf].
  unfold client_read. cbv zeta beta iota.
  assert (Hread : length (read_into (rxBuffer s) (firstn RX_SIZE (inbound s)))
                  = RX_SIZE).
  { rewrite read_into_length; [exact Hbuf |].
    rewrite length_firstn, Hbuf. apply Nat.le_min_l. }
  destruct (_ <=? 0); [exact Hread |].
  match goal with |- context [classify ?buf ?l] => destruct (classify buf l) end;
    try exact Hread;
    apply IH; rewrite apply_frame_rxBuffer; exact Hread.
Qed.

(** X8: The receive buffer keeps its 256 bytes through any amount of input:
    a read never stores past its end. *)
Theorem rxBuffer_size_kept (s : State) (Hbuf : length (rxBuffer s) = RX_SIZE) :
  length (rxBuffer (processIncomingPackets s)) = RX_SIZE.
Proof. apply drain_rxBuffer_length. exact Hbuf. Qed.

Lemma rxBuffer_size_kept_witness :
  length (rxBuffer (processIncomingPackets
                      (set_inbound heartbeat_then_ack ready_state))) = RX_SIZE.
Proof.
  exact (rxBuffer_size_kept (set_inbound heartbeat_then_ack ready_state) eq_refl).
Defined.

(** ** Operator commands in detail *)

Lemma indexOf_from_word (w rest : string) : forall i : Z,
  0 <= i -> indexOf_from " " w i = -1 ->
  indexOf_from " " (w ++ String " " rest) i = i + Z.of_nat (String.length w).
Proof.
  induction w as [| c w IH]; intros i Hi Hw.
  - cbn. lia.
  - cbn [append indexOf_from String.length] in *.
    destruct (Ascii.eqb c " "); [lia |].
    rewrite IH by (first [lia | exact Hw]). lia.
Qed.

Lemma substring_prefix (w rest : string) :
  String.substring 0 (String.length w) (w ++ rest) = w.
Proof.
  induction w as [| c w IH]; cbn [append String.length String.substring].
  - destruct rest; reflexivity.
  - rewrite IH. reflexivity.
Qed.

Lemma substring_suffix (w rest : string) :
  String.substring (String.length w) (String.length rest) (w ++ rest) = rest.
Proof.
  induction w as [| c w IH]; cbn [append String.length String.substring].
  - apply substring_whole.
  - exact IH.
Qed.

Lemma length_append (a b : string) :
  String.length (a ++ b) = (String.length a + String.length b)%nat.
Proof.
  induction a as [| c a IH]; cbn [append String.length]; [reflexivity |].
  rewrite IH. reflexivity.
Qed.

(** A line made of a word without a space, one space and the rest is cut
    at that space. *)
Lemma line_split (w arg : string) :
  indexOf " " w = -1 ->
  indexOf " " (w ++ String " " arg) = Z.of_nat (String.length w) /\
  substring_to (w ++ String " " arg) 0 (Z.of_nat (String.length w)) = w /\
  substring_from (w ++ String " " arg) (Z.of_nat (String.length w) + 1) = arg.
Proof.
  intros Hw. split; [| split].
  - unfold indexOf in *. rewrite indexOf_from_word by (first [lia | exact Hw]). lia.
  - unfold substring_to. rewrite Z.sub_0_r, Nat2Z.id. cbn [Z.to_nat].
    apply substring_prefix.
  - unfold substring_from.
    replace (Z.to_nat (Z.of_nat (String.length w) + 1))
      with (String.length (w ++ " ")) by (rewrite length_append; cbn; lia).
    replace (w ++ String " " arg)%string with ((w ++ " ") ++ arg)%string.
    + generalize (w ++ " ")%string. intros w'.
      rewrite (length_append w' arg).
      replace (String.length w' + String.length arg - String.length w')%nat
        with (String.length arg) by lia.
      apply substring_suffix.
    + clear Hw. induction w as [| c w IH]; cbn [append]; [reflexivity |].
      rewrite IH. reflexivity.
Qed.

(** What [handleUserCommand] does with a command word and an argument. *)
Lemma handleUserCommand_word (toFloat : string -> Q) (w arg : string) (s : State) :
  indexOf " " w = -1 ->
  handleUserCommand toFloat (w ++ String " " arg) s =
  let cmd := toLowerCase w in
  if String.eqb cmd "volume" then setVolume (toFloat arg) s
  else if String.eqb cmd "dim" then
    if String.eqb arg "on" then setDim true s else setDim false s
  else if String.eqb cmd "source" then setSource arg s
  else if String.eqb cmd "status" then
    s |> Serial_printf "Vol: %.1f dB | Src: %s | Dim: %s\n"
           [ArgFloat (currentVolume s); ArgStr (currentSource s);
            ArgStr (if isDimmed s then "ON" else "OFF")]
  else printHelp s.
Proof.
  intros Hw. destruct (line_split w arg Hw) as (Hi & Hc & Ha).
  unfold handleUserCommand. rewrite Hi. cbv zeta.
  replace (Z.of_nat (String.length w) =? -1) with false
    by (symmetry; apply Z.eqb_neq; lia).
  rewrite Hc, Ha. reflexivity.
Qed.

(** X9: The argument of [dim] is compared with the two letters on as they
    are: any other argument, upper case or misspelt, switches dim off. *)
Theorem dim_argument_other_than_on (toFloat : string -> Q) (arg : string)
  (s : State) (Harg : arg <> "on"%string) :
  writes_of client (trace (handleUserCommand toFloat ("dim " ++ arg) s)) =
    writes_of client (trace s) ++ [PRE_CMD; DIM_CMD_PREFIX; [0x00]].
Proof.
  change ("dim " ++ arg)%string with ("dim" ++ String " " arg)%string.
  rewrite handleUserCommand_word by reflexivity. cbv zeta.
  change (String.eqb (toLowerCase "dim") "volume") with false.
  change (String.eqb (toLowerCase "dim") "dim") with true. cbv iota.
  replace (String.eqb arg "on") with false
    by (symmetry; apply String.eqb_neq; exact Harg).
  unfold setDim, client_write, delay. cbv zeta.
  rewrite !trace_emit, !writes_of_app. cbn [writes_of].
  rewrite !app_nil_r, <- !app_assoc. reflexivity.
Qed.

Lemma dim_argument_other_than_on_witness :
  writes_of client (trace (handleUserCommand decimal_toFloat "dim ON" ready_state)) =
    [PRE_CMD; DIM_CMD_PREFIX; [0x00]].
Proof.
  refine (dim_argument_other_than_on decimal_toFloat "ON" ready_state _).
  discriminate.
Defined.

(** X10: A source name that is none of the four is refused: the line prints
    the error and nothing is written. *)
Theorem source_unknown_refused (toFloat : string -> Q) (arg : string) (s : State)
  (Hunknown : source_payload (toLowerCase arg) = None) :
  handleUserCommand toFloat ("source " ++ arg) s =
    Serial_println "Invalid source." s /\
  writes_of client (trace (handleUserCommand toFloat ("source " ++ arg) s)) =
    writes_of client (trace s).
Proof.
  assert (E : handleUserCommand toFloat ("source " ++ arg) s =
              Serial_println "Invalid source." s).
  { change ("source " ++ arg)%string with ("source" ++ String " " arg)%string.
    rewrite handleUserCommand_word by reflexivity. cbv zeta.
    change (String.eqb (toLowerCase "source") "volume") with false.
    change (String.eqb (toLowerCase "source") "dim") with false.
    change (String.eqb (toLowerCase "source") "source") with true. cbv iota.
    unfold setSource. rewrite Hunknown. reflexivity. }
  rewrite E. split; [reflexivity |].
  unfold Serial_println. rewrite trace_emit, writes_of_app. apply app_nil_r.
Qed.

Lemma source_unknown_refused_witness :
  writes_of client (trace (handleUserCommand decimal_toFloat "source hdmi" ready_state))
  = [].
Proof.
  exact (proj2 (source_unknown_refused decimal_toFloat "hdmi" ready_state eq_refl)).
Defined.

Lemma lower_char_idempotent (c : ascii) : lower_char (lower_char c) = lower_char c.
Proof. destruct c as [[] [] [] [] [] [] [] []]; reflexivity. Qed.

Lemma lower_char_space (c : ascii) :
  Ascii.eqb (lower_char c) " " = Ascii.eqb c " ".
Proof. destruct c as [[] [] [] [] [] [] [] []]; reflexivity. Qed.

Lemma toLowerCase_idempotent (w : string) : toLowerCase (toLowerCase w) = toLowerCase w.
Proof.
  induction w as [| c w IH]; cbn [toLowerCase]; [reflexivity |].
  rewrite lower_char_idempotent, IH. reflexivity.
Qed.

Lemma toLowerCase_length (w : string) :
  String.length (toLowerCase w) = String.length w.
Proof.
  induction w as [| c w IH]; cbn [toLowerCase String.length]; congruence.
Qed.

Lemma toLowerCase_no_space (w : string) : forall i : Z,
  indexOf_from " " (toLowerCase w) i = indexOf_from " " w i.
Proof.
  induction w as [| c w IH]; intros i; cbn [toLowerCase indexOf_from]; [reflexivity |].
  rewrite lower_char_space, IH. reflexivity.
Qed.

(** X11: The command word is read without regard to letter case; the argument
    is passed on as typed. *)
Theorem command_word_case_insensitive (toFloat : string -> Q) (w arg : string)
  (s : State) (Hword : indexOf " " w = -1) :
  handleUserCommand toFloat (w ++ String " " arg) s =
  handleUserCommand toFloat (toLowerCase w ++ String " " arg) s.
Proof.
  rewrite !handleUserCommand_word.
  - rewrite toLowerCase_idempotent. reflexivity.
  - unfold indexOf in *. rewrite toLowerCase_no_space. exact Hword.
  - exact Hword.
Qed.

Lemma command_word_case_insensitive_witness :
  handleUserCommand decimal_toFloat "VoLuMe -12.5" ready_state =
  handleUserCommand decimal_toFloat "volume -12.5" ready_state.
Proof.
  exact (command_word_case_insensitive decimal_toFloat "VoLuMe" "-12.5"
           ready_state eq_refl).
Defined.

Lemma emit_alone (e : event) (s : State) : emit e s = set_trace (trace s ++ [e]) s.
Proof. reflexivity. Qed.

Lemma emit_after (e : event) (new : list event) (s : State) :
  emit e (set_trace (trace s ++ new) s) = set_trace (trace s ++ new ++ [e]) s.
Proof. unfold emit, set_trace. cbn. rewrite <- app_assoc. reflexivity. Qed.

Lemma send_command_after (prefix : list Z) (payload : Z) (new : list event)
  (s : State) :
  send_command prefix payload (set_trace (trace s ++ new) s) =
  set_trace
    (trace s ++ new ++
     [Write client PRE_CMD; Delay 100; Write client prefix; Write client [payload]])
    s.
Proof.
  unfold send_command, client_write, delay.
  rewrite !emit_after, <- !app_assoc. reflexivity.
Qed.

Lemma send_command_alone (prefix : list Z) (payload : Z) (s : State) :
  send_command prefix payload s =
  set_trace
    (trace s ++
     [Write client PRE_CMD; Delay 100; Write client prefix; Write client [payload]])
    s.
Proof.
  unfold send_command, client_write, delay.
  rewrite (emit_alone _ s), !emit_after. reflexivity.
Qed.

Lemma source_payload_range (src : string) (p : Z) :
  source_payload src = Some p -> 0 <= p < 256.
Proof.
  unfold source_payload.
  repeat match goal with |- context [if ?c then _ else _] => destruct c end;
    intros [= <-]; lia.
Qed.

(** X12: An operator command changes nothing but the log of effects: the device
    state, the session flags and the pending input stay as they are.  What
    it writes to the transport is either nothing or one whole command: the
    preamble, one of the three command prefixes and one payload byte. *)
Theorem handleUserCommand_effects (toFloat : string -> Q) (cmdLine : string)
  (s : State) :
  exists new,
    handleUserCommand toFloat cmdLine s = set_trace (trace s ++ new) s /\
    connects_of client new = [] /\
    (writes_of client new = [] \/
     exists prefix payload,
       In prefix [VOLUME_CMD_PREFIX; DIM_CMD_PREFIX; SOURCE_CMD_PREFIX] /\
       0 <= payload < 256 /\
       writes_of client new = [PRE_CMD; prefix; [payload]]).
Proof.
  unfold handleUserCommand. cbv zeta.
  destruct (String.eqb _ "volume").
  { unfold setVolume. destruct (_ || _).
    - eexists. split; [apply emit_alone |]. split; [reflexivity | left; reflexivity].
    - cbv zeta.
      match goal with |- context [client_write [?p]] => set (payload := p) end.
      match goal with |- context [Serial_printf ?f ?a s] =>
        change (Serial_printf f a s) with (set_trace (trace s ++ [Printf f a]) s)
      end.
      eexists. split; [apply (send_command_after VOLUME_CMD_PREFIX payload) |].
      split; [reflexivity |]. right. exists VOLUME_CMD_PREFIX, payload.
      split; [left; reflexivity |]. split; [| reflexivity].
      subst payload. unfold to_byte. apply Z.mod_pos_bound. lia. }
  destruct (String.eqb _ "dim").
  { destruct (String.eqb _ "on"); unfold setDim; cbv zeta;
      (eexists; split; [apply (send_command_alone DIM_CMD_PREFIX) |]);
      (split; [reflexivity |]); right; eexists; eexists;
      (split; [right; left; reflexivity |]); (split; [| reflexivity]); lia. }
  destruct (String.eqb _ "source").
  { unfold setSource. destruct (source_payload _) as [p |] eqn:E.
    - eexists. split; [apply (send_command_alone SOURCE_CMD_PREFIX p) |].
      split; [reflexivity |]. right. exists SOURCE_CMD_PREFIX, p.
      split; [right; right; left; reflexivity |]. split; [| reflexivity].
      exact (source_payload_range _ _ E).
    - eexists. split; [apply emit_alone |]. split; [reflexivity | left; reflexivity]. }
  destruct (String.eqb _ "status");
    (eexists; split; [apply emit_alone |]; split; [reflexivity | left; reflexivity]).
Qed.

(** ** Discovery and start-up in detail *)

Lemma stops_of_app (c : socket) (t1 t2 : list event) :
  stops_of c (t1 ++ t2) = (stops_of c t1 + stops_of c t2)%nat.
Proof.
  induction t1 as [| e t1 IH]; cbn [app stops_of]; [reflexivity |].
  destruct e; try exact IH.
  destruct c, c0; cbn; rewrite ?IH; reflexivity.
Qed.

(** What the sweep leaves alone, and how many probe connections it closes. *)
Lemma scan_loop_frame (net : Network) (local : IPAddress) (k : nat) :
  forall (i : Z) (s : State),
    (forall c, writes_of c (trace (scan_loop net local k i s)) = writes_of c (trace s)) /\
    connects_of client (trace (scan_loop net local k i s)) = connects_of client (trace s) /\
    stops_of scanClient (trace (scan_loop net local k i s)) =
      (stops_of scanClient (trace s) +
       length (filter (accepts net)
                 (take_through (confirmed net) (candidates_from local i k))))%nat /\
    isConnected (scan_loop net local k i s) = isConnected s /\
    link_up (scan_loop net local k i s) = link_up s /\
    lastHeartbeatTime (scan_loop net local k i s) = lastHeartbeatTime s /\
    device_state (scan_loop net local k i s) = device_state s.
Proof.
  induction k as [| k IH]; intros i s.
  - cbn [scan_loop candidates_from Zseq map filter take_through length].
    unfold Serial_println. rewrite trace_emit, connects_of_app, stops_of_app.
    cbn [connects_of stops_of]. rewrite app_nil_r, !Nat.add_0_r.
    repeat split. intros c. rewrite writes_of_app. apply app_nil_r.
  - rewrite candidates_from_step. cbn [scan_loop].
    destruct (ip_eqb (set_ip3 local i) local); [apply IH |].
    cbn [take_through]. unfold confirmed at 1. unfold getMacFromIp.
    set (target := set_ip3 local i).
    set (s1 := if i mod 10 =? 0 then Serial_print "." s else s).
    assert (H1 : (forall c, writes_of c (trace s1) = writes_of c (trace s)) /\
                 connects_of client (trace s1) = connects_of client (trace s) /\
                 stops_of scanClient (trace s1) = stops_of scanClient (trace s) /\
                 isConnected s1 = isConnected s /\ link_up s1 = link_up s /\
                 lastHeartbeatTime s1 = lastHeartbeatTime s /\
                 device_state s1 = device_state s).
    { subst s1. destruct (i mod 10 =? 0); [| repeat split].
      unfold Serial_print. rewrite trace_emit, connects_of_app, stops_of_app.
      cbn [connects_of stops_of]. rewrite app_nil_r, Nat.add_0_r.
      repeat split. intros c. rewrite writes_of_app. apply app_nil_r. }
    destruct H1 as (Hw1 & Hc1 & Hs1 & Hi1 & Hl1 & Ht1 & Hd1).
    destruct (accepts net target) eqn:Eacc; cbn [andb].
    + destruct (etharp_find_addr net target) as [mac |].
      * destruct (isDolbyMac mac).
        -- unfold Serial_println, Serial_printf.
           cbn [trace emit set_trace set_dp564Ip set_deviceFound isConnected
                link_up lastHeartbeatTime device_state currentVolume isDimmed
                currentSource].
           rewrite !connects_of_app, !stops_of_app, Hc1, Hs1.
           cbn [connects_of stops_of filter length]. rewrite Eacc.
           cbn [length]. rewrite !app_nil_r, !Nat.add_0_r.
           repeat split; try assumption.
           intros c. rewrite !writes_of_app, Hw1. cbn [writes_of].
           rewrite !app_nil_r. reflexivity.
        -- match goal with |- context [scan_loop net local k (i + 1) ?st] =>
             destruct (IH (i + 1) st) as (IHw & IHc & IHs & IHi & IHl & IHt & IHd)
           end.
           rewrite IHc, IHs, IHi, IHl, IHt, IHd.
           unfold Serial_println, Serial_printf.
           cbn [trace emit set_trace isConnected link_up lastHeartbeatTime
                device_state currentVolume isDimmed currentSource].
           rewrite !connects_of_app, !stops_of_app, Hc1, Hs1.
           cbn [connects_of stops_of filter length]. rewrite Eacc.
           cbn [length]. rewrite !app_nil_r.
           repeat split; try assumption; try lia.
           intros c. rewrite IHw.
           unfold Serial_println, Serial_printf. cbn [trace emit set_trace].
           rewrite !writes_of_app, Hw1. cbn [writes_of].
           rewrite !app_nil_r. reflexivity.
      * match goal with |- context [scan_loop net local k (i + 1) ?st] =>
          destruct (IH (i + 1) st) as (IHw & IHc & IHs & IHi & IHl & IHt & IHd)
        end.
        rewrite IHc, IHs, IHi, IHl, IHt, IHd.
        unfold Serial_println, Serial_printf.
        cbn [trace emit set_trace isConnected link_up lastHeartbeatTime
             device_state currentVolume isDimmed currentSource].
        rewrite !connects_of_app, !stops_of_app, Hc1, Hs1.
        cbn [connects_of stops_of filter length]. rewrite Eacc.
        cbn [length]. rewrite !app_nil_r.
        repeat split; try assumption; try lia.
        intros c. rewrite IHw.
        unfold Serial_println, Serial_printf. cbn [trace emit set_trace].
        rewrite !writes_of_app, Hw1. cbn [writes_of].
        rewrite !app_nil_r. reflexivity.
    + match goal with |- context [scan_loop net local k (i + 1) ?st] =>
        destruct (IH (i + 1) st) as (IHw & IHc & IHs & IHi & IHl & IHt & IHd)
      end.
      rewrite IHc, IHs, IHi, IHl, IHt, IHd.
      cbn [trace emit set_trace isConnected link_up lastHeartbeatTime
           device_state currentVolume isDimmed currentSource].
      rewrite !connects_of_app, !stops_of_app, Hc1, Hs1.
      cbn [connects_of stops_of filter length]. rewrite Eacc.
      rewrite ?app_nil_r, ?Nat.add_0_r.
      repeat split; try assumption; try lia.
      intros c. rewrite IHw. cbn [trace emit set_trace].
      rewrite !writes_of_app, Hw1. cbn [writes_of].
      rewrite ?app_nil_r. reflexivity.
Qed.

(** X13: The sweep closes every probe connection that was accepted, writes on
    no socket and does not touch the session: its connection flags, its
    heartbeat timer and the device state stay as they are. *)
Theorem scan_closes_accepted_probes (net : Network) (s : State) :
  connects_of scanClient (trace (scanForDolbyDevice net s)) =
    connects_of scanClient (trace s) ++
    take_through (confirmed net) (candidates (localIP net)) /\
  stops_of scanClient (trace (scanForDolbyDevice net s)) =
    (stops_of scanClient (trace s) +
     length (filter (accepts net)
               (take_through (confirmed net) (candidates (localIP net)))))%nat /\
  (forall c, writes_of c (trace (scanForDolbyDevice net s)) = writes_of c (trace s)) /\
  connects_of client (trace (scanForDolbyDevice net s)) = connects_of client (trace s) /\
  isConnected (scanForDolbyDevice net s) = isConnected s /\
  lastHeartbeatTime (scanForDolbyDevice net s) = lastHeartbeatTime s /\
  device_state (scanForDolbyDevice net s) = device_state s.
Proof.
  unfold scanForDolbyDevice, candidates.
  set (s0 := Serial_println "Scanning subnet for Dolby devices on port 4444..." s).
  destruct (scan_loop_spec net (localIP net) 254 1 s0) as (Hp & _).
  destruct (scan_loop_frame net (localIP net) 254 1 s0)
    as (Hw & Hc & Hs & Hi & _ & Ht & Hd).
  rewrite Hp, Hc, Hs, Hi, Ht, Hd. subst s0. unfold Serial_println.
  rewrite trace_emit, !connects_of_app, stops_of_app.
  cbn [connects_of stops_of]. rewrite !app_nil_r, Nat.add_0_r.
  repeat split.
  intros c. rewrite Hw. unfold Serial_println.
  rewrite trace_emit, writes_of_app. apply app_nil_r.
Qed.

Lemma loop_idle (toFloat : string -> Q) (inp : TickInput) (s : State) :
  deviceFound s = false \/ isConnected s = false -> loop toFloat inp s = s.
Proof.
  intros [H | H]; unfold loop.
  - rewrite H. reflexivity.
  - destruct (deviceFound s); [| reflexivity].
    rewrite H, andb_false_r. cbn [negb]. rewrite H. reflexivity.
Qed.

Lemma run_ticks_idle (toFloat : string -> Q) (inputs : list TickInput) (s : State) :
  deviceFound s = false \/ isConnected s = false -> run_ticks toFloat inputs s = s.
Proof.
  intros H. induction inputs as [| inp inputs IH]; [reflexivity |].
  unfold run_ticks in *. cbn [fold_left]. rewrite (loop_idle toFloat inp s H).
  exact IH.
Qed.

(** X14: When the transport is found closed, the tick reports it, closes the
    handle and marks the session disconnected; the last known device state
    is kept, nothing is written, and no later tick does anything more. *)
Theorem connection_loss_keeps_state (toFloat : string -> Q) (inp : TickInput)
  (inputs : list TickInput) (s : State)
  (Hfound : deviceFound s = true) (Hconn : isConnected s = true)
  (Hdown : link_up s = false) :
  trace (run_ticks toFloat (inp :: inputs) s) =
    trace s ++ [Print "[Error] Connection lost."; Stop client] /\
  isConnected (run_ticks toFloat (inp :: inputs) s) = false /\
  device_state (run_ticks toFloat (inp :: inputs) s) = device_state s.
Proof.
  unfold run_ticks. cbn [fold_left]. fold (run_ticks toFloat inputs (loop toFloat inp s)).
  assert (E : loop toFloat inp s =
              s |> Serial_println "[Error] Connection lost."
                |> set_isConnected false |> client_stop).
  { unfold loop. rewrite Hfound, Hdown, Hconn. reflexivity. }
  rewrite run_ticks_idle by (right; rewrite E; reflexivity).
  rewrite E. unfold client_stop, Serial_println, emit.
  cbn [trace set_trace set_inbound set_link_up set_isConnected].
  rewrite <- app_assoc. repeat split.
Qed.

Lemma connection_loss_keeps_state_witness :
  device_state
    (run_ticks decimal_toFloat
       [MkTick 20000 20000 None; MkTick 20010 20010 (Some "volume -3"%string)]
       (set_link_up false ready_state))
  = device_state (set_link_up false ready_state).
Proof.
  exact (proj2 (proj2 (connection_loss_keeps_state decimal_toFloat
                         (MkTick 20000 20000 None)
                         [MkTick 20010 20010 (Some "volume -3"%string)]
                         (set_link_up false ready_state)
                         eq_refl eq_refl eq_refl))).
Defined.

Lemma connectToDevice_accepted (now : Z) (s : State) :
  writes_of client (trace (connectToDevice true now s)) =
    writes_of client (trace s) ++ [HANDSHAKE_MSG_1; HANDSHAKE_MSG_2] /\
  connects_of client (trace (connectToDevice true now s)) =
    connects_of client (trace s) ++ [dp564Ip s] /\
  heartbeats (trace (connectToDevice true now s)) = heartbeats (trace s) /\
  deviceFound (connectToDevice true now s) = deviceFound s /\
  isConnected (connectToDevice true now s) = true /\
  link_up (connectToDevice true now s) = true /\
  inbound (connectToDevice true now s) = [] /\
  lastHeartbeatTime (connectToDevice true now s) = now /\
  device_state (connectToDevice true now s) = device_state s.
Proof.
  assert (Ht : trace (connectToDevice true now s) =
               trace s ++
               [Print "Connecting to DP564 at "; Printf "%s" [ArgIp (dp564Ip s)];
                Connect client (dp564Ip s) TARGET_PORT;
                Print "Socket connected. Performing Handshake...";
                Write client HANDSHAKE_MSG_1; Delay 100;
                Write client HANDSHAKE_MSG_2;
                Print "Handshake complete. Ready.";
                Print "Cmds: volume <db>, dim <on/off>, source <name>, status"]).
  { unfold connectToDevice, printHelp, client_write, delay, Serial_println,
      Serial_print, Serial_println_ip, emit.
    cbn [trace set_trace set_inbound set_link_up set_isConnected
         set_lastHeartbeatTime dp564Ip].
    rewrite <- !app_assoc. reflexivity. }
  unfold heartbeats. rewrite Ht, writes_of_app, connects_of_app.
  cbn [writes_of connects_of]. rewrite count_occ_app.
  repeat split. cbn. lia.
Qed.

Lemma connectToDevice_refused (now : Z) (s : State) :
  writes_of client (trace (connectToDevice false now s)) = writes_of client (trace s) /\
  connects_of client (trace (connectToDevice false now s)) =
    connects_of client (trace s) ++ [dp564Ip s] /\
  isConnected (connectToDevice false now s) = false /\
  device_state (connectToDevice false now s) = device_state s.
Proof.
  unfold connectToDevice, Serial_println, Serial_print, Serial_println_ip, emit.
  cbn [trace set_trace set_isConnected isConnected dp564Ip].
  rewrite !writes_of_app, !connects_of_app. cbn [writes_of connects_of].
  rewrite !app_nil_r. repeat split.
Qed.

(** The heartbeats a tick in the Ready state adds. *)
Lemma loop_ready_heartbeats (toFloat : string -> Q) (inp : TickInput) (s : State) :
  deviceFound s = true -> isConnected s = true -> link_up s = true ->
  heartbeats (trace (loop toFloat inp s)) =
    (heartbeats (trace s) +
     if wrap32 (millis_check inp - lastHeartbeatTime s) >? HEARTBEAT_INTERVAL
     then 1 else 0)%nat.
Proof.
  intros Hf Hc Hl.
  rewrite (loop_ready toFloat inp s Hf Hc Hl).
  destruct (serial_step_frame toFloat inp
              (processIncomingPackets (heartbeat_step inp s))) as (-> & _).
  destruct (processIncomingPackets_frame (heartbeat_step inp s)) as (-> & _).
  unfold heartbeat_step.
  destruct (_ >? _).
  - unfold sendHeartbeat. rewrite Hl.
    change (trace (set_lastHeartbeatTime (millis_reset inp)
                     (client_write HEARTBEAT_PACKET s)))
      with (trace (client_write HEARTBEAT_PACKET s)).
    rewrite heartbeats_write_heartbeat. lia.
  - lia.
Qed.

(** X15: After the handshake the heartbeat timer starts at the time the settle
    window ended: the first tick sends a heartbeat exactly when more than
    ten seconds have passed since then, whatever the timer held before. *)
Theorem handshake_restarts_heartbeat_timer (toFloat : string -> Q) (now : Z)
  (inp : TickInput) (s : State) (Hfound : deviceFound s = true) :
  writes_of client (trace (connectToDevice true now s)) =
    writes_of client (trace s) ++ [HANDSHAKE_MSG_1; HANDSHAKE_MSG_2] /\
  heartbeats (trace (loop toFloat inp (connectToDevice true now s))) =
    (heartbeats (trace s) +
     if wrap32 (millis_check inp - now) >? HEARTBEAT_INTERVAL then 1 else 0)%nat.
Proof.
  destruct (connectToDevice_accepted now s)
    as (Hw & _ & Hh & Hf & Hi & Hl & _ & Ht & _).
  split; [exact Hw |].
  generalize dependent (connectToDevice true now s). intros s1 _ Hh Hf Hi Hl Ht.
  rewrite loop_ready_heartbeats by congruence.
  rewrite Ht, Hh. reflexivity.
Qed.

Lemma handshake_restarts_heartbeat_timer_witness :
  heartbeats
    (trace (loop decimal_toFloat (MkTick 70000 70000 None)
              (connectToDevice true 65000 disconnected_state))) = 0%nat.
Proof.
  exact (proj2 (handshake_restarts_heartbeat_timer decimal_toFloat 65000
                  (MkTick 70000 70000 None) disconnected_state eq_refl)).
Defined.

(** ** Start-up *)

Lemma scanForDolbyDevice_result (net : Network) (s : State) :
  match find (confirmed net) (candidates (localIP net)) with
  | Some t =>
      deviceFound (scanForDolbyDevice net s) = true /\
      dp564Ip (scanForDolbyDevice net s) = t
  | None =>
      deviceFound (scanForDolbyDevice net s) = deviceFound s /\
      dp564Ip (scanForDolbyDevice net s) = dp564Ip s
  end.
Proof.
  unfold scanForDolbyDevice, candidates.
  destruct (scan_loop_spec net (localIP net) 254 1
              (Serial_println "Scanning subnet for Dolby devices on port 4444..." s))
    as (_ & Hr).
  destruct (find _ _).
  - exact Hr.
  - destruct Hr as (Hf & Hd & _). split; assumption.
Qed.

Lemma scanForDolbyDevice_session (net : Network) (s : State) :
  (forall c, writes_of c (trace (scanForDolbyDevice net s)) = writes_of c (trace s)) /\
  connects_of client (trace (scanForDolbyDevice net s)) = connects_of client (trace s).
Proof.
  unfold scanForDolbyDevice.
  destruct (scan_loop_frame net (localIP net) 254 1
              (Serial_println "Scanning subnet for Dolby devices on port 4444..." s))
    as (Hw & Hc & _).
  split.
  - intros c. rewrite Hw. unfold Serial_println.
    rewrite trace_emit, writes_of_app. apply app_nil_r.
  - rewrite Hc. unfold Serial_println.
    rewrite trace_emit, connects_of_app. apply app_nil_r.
Qed.

(** The banner [setup] prints before anything else. *)
Lemma setup_banner (s : State) :
  (forall c, writes_of c
               (trace (s |> delay 500
                         |> Serial_println "\n\n--- DP564 Auto-Discovery Controller ---"))
             = writes_of c (trace s)) /\
  connects_of client
    (trace (s |> delay 500
              |> Serial_println "\n\n--- DP564 Auto-Discovery Controller ---"))
  = connects_of client (trace s) /\
  deviceFound (s |> delay 500
                 |> Serial_println "\n\n--- DP564 Auto-Discovery Controller ---")
  = deviceFound s.
Proof.
  unfold delay, Serial_println. rewrite !trace_emit. repeat split.
  - intros c. rewrite !writes_of_app. cbn [writes_of]. rewrite !app_nil_r. reflexivity.
  - rewrite !connects_of_app. cbn [connects_of]. rewrite !app_nil_r. reflexivity.
Qed.

(** X16: When the network was not joined, or the sweep confirms no candidate,
    start-up ends without a device: the session socket is never opened,
    nothing is written on any socket, and no later tick does anything. *)
Theorem startup_without_device_is_silent (toFloat : string -> Q)
  (wifi_connected accepted : bool) (net : Network) (now : Z)
  (inputs : list TickInput) (s : State)
  (Hfresh : deviceFound s = false)
  (Hnone : wifi_connected = false \/
           find (confirmed net) (candidates (localIP net)) = None) :
  deviceFound (setup wifi_connected net accepted now s) = false /\
  connects_of client (trace (setup wifi_connected net accepted now s)) =
    connects_of client (trace s) /\
  (forall c, writes_of c (trace (setup wifi_connected net accepted now s)) =
             writes_of c (trace s)) /\
  run_ticks toFloat inputs (setup wifi_connected net accepted now s) =
    setup wifi_connected net accepted now s.
Proof.
  unfold setup. cbv zeta.
  destruct (setup_banner s) as (Hw0 & Hc0 & Hf0).
  generalize dependent
    (s |> delay 500 |> Serial_println "\n\n--- DP564 Auto-Discovery Controller ---").
  intros s0 Hw0 Hc0 Hf0.
  assert (Hscan :
    let s1 := if wifi_connected then scanForDolbyDevice net s0 else s0 in
    deviceFound s1 = false /\
    connects_of client (trace s1) = connects_of client (trace s) /\
    (forall c, writes_of c (trace s1) = writes_of c (trace s))).
  { cbv zeta. destruct wifi_connected.
    - destruct Hnone as [H | H]; [discriminate |].
      pose proof (scanForDolbyDevice_result net s0) as Hr. rewrite H in Hr.
      destruct Hr as (Hf & _).
      destruct (scanForDolbyDevice_session net s0) as (Hw & Hc).
      rewrite Hf, Hc. repeat split; try congruence;
        intros c; rewrite Hw; apply Hw0.
    - repeat split; try congruence; intros c; apply Hw0. }
  cbv zeta in Hscan.
  generalize dependent (if wifi_connected then scanForDolbyDevice net s0 else s0).
  intros s1 (Hf1 & Hc1 & Hw1).
  rewrite Hf1.
  split; [exact Hf1 |]. split.
  { unfold Serial_println. rewrite trace_emit, connects_of_app.
    cbn [connects_of]. rewrite app_nil_r. exact Hc1. }
  split.
  { intros c. unfold Serial_println. rewrite trace_emit, writes_of_app.
    cbn [writes_of]. rewrite app_nil_r. apply Hw1. }
  apply run_ticks_idle. left. exact Hf1.
Qed.

Lemma startup_without_device_is_silent_witness :
  run_ticks decimal_toFloat
    [MkTick 1000 1000 (Some "volume -20"%string)]
    (setup true silent_network true 900 initial_state)
  = setup true silent_network true 900 initial_state.
Proof.
  refine (proj2 (proj2 (proj2
    (startup_without_device_is_silent decimal_toFloat true true silent_network
       900 [MkTick 1000 1000 (Some "volume -20"%string)] initial_state
       eq_refl _)))).
  right. vm_compute. reflexivity.
Defined.

(** X17: When the sweep confirms a candidate, start-up opens the session
    connection once, to that candidate.  If the connection is accepted the
    two handshake messages are the only bytes written and the session is
    connected; if it is refused nothing is written, and no later tick
    tries again. *)
Theorem startup_connects_to_discovered (toFloat : string -> Q)
  (accepted : bool) (net : Network) (now : Z) (t : IPAddress)
  (inputs : list TickInput) (s : State)
  (Hfound : find (confirmed net) (candidates (localIP net)) = Some t) :
  dp564Ip (setup true net accepted now s) = t /\
  connects_of client (trace (setup true net accepted now s)) =
    connects_of client (trace s) ++ [t] /\
  writes_of client (trace (setup true net accepted now s)) =
    writes_of client (trace s) ++
    (if accepted then [HANDSHAKE_MSG_1; HANDSHAKE_MSG_2] else []) /\
  isConnected (setup true net accepted now s) = accepted /\
  (accepted = false ->
   run_ticks toFloat inputs (setup true net accepted now s) =
     setup true net accepted now s).
Proof.
  unfold setup. cbv zeta.
  destruct (setup_banner s) as (Hw0 & Hc0 & _).
  generalize dependent
    (s |> delay 500 |> Serial_println "\n\n--- DP564 Auto-Discovery Controller ---").
  intros s0 Hw0 Hc0.
  pose proof (scanForDolbyDevice_result net s0) as Hr. rewrite Hfound in Hr.
  destruct Hr as (Hf & Hd).
  destruct (scanForDolbyDevice_session net s0) as (Hw & Hc).
  rewrite Hc0 in Hc. specialize (Hw client). rewrite Hw0 in Hw.
  generalize dependent (scanForDolbyDevice net s0). intros s1 Hf Hd Hw Hc.
  rewrite Hf.
  assert (Hip : dp564Ip (connectToDevice accepted now s1) = dp564Ip s1)
    by (destruct accepted; reflexivity).
  destruct accepted.
  - destruct (connectToDevice_accepted now s1) as (Hw2 & Hc2 & _ & _ & Hi2 & _).
    rewrite Hip, Hw2, Hc2, Hi2, Hd, Hw, Hc.
    repeat split. discriminate.
  - destruct (connectToDevice_refused now s1) as (Hw2 & Hc2 & Hi2 & _).
    rewrite Hip, Hw2, Hc2, Hi2, Hd, Hw, Hc, app_nil_r.
    repeat split. intros _. apply run_ticks_idle. right. exact Hi2.
Qed.

Lemma startup_connects_to_discovered_witness :
  connects_of client (trace (setup true mock_network true 1200 initial_state)) =
    [MkIp 192 168 4 91] /\
  writes_of client (trace (setup true mock_network true 1200 initial_state)) =
    [HANDSHAKE_MSG_1; HANDSHAKE_MSG_2].
Proof.
  assert (Hfound : find (confirmed mock_network) (candidates (localIP mock_network))
                   = Some (MkIp 192 168 4 91)) by (vm_compute; reflexivity).
  destruct (startup_connects_to_discovered decimal_toFloat true mock_network 1200
              (MkIp 192 168 4 91) [] initial_state Hfound)
    as (_ & Hc & Hw & _).
  exact (conj Hc Hw).
Defined.

(** ** Joining a network *)

Lemma pauses_of_app (ms : Z) (t1 t2 : list event) :
  pauses_of ms (t1 ++ t2) = (pauses_of ms t1 + pauses_of ms t2)%nat.
Proof. unfold pauses_of. rewrite filter_app, length_app. reflexivity. Qed.

(** The selection loop keeps the best entry so far unless a later open
    entry is strictly stronger. *)
Lemma pick_open_spec (aps : list AccessPoint) :
  forall (i bn br : Z) (s : State) (bn' br' : Z) (s' : State),
    pick_open aps i bn br s = (bn', br', s') ->
    (bn' = bn /\ br' = br /\
     forall ap, In ap aps -> ap_open ap = true -> ap_rssi ap <= br) \/
    (exists (j : nat) (ap : AccessPoint),
        nth_error aps j = Some ap /\ bn' = i + Z.of_nat j /\
        br' = ap_rssi ap /\ ap_open ap = true /\ br < br' /\
        (forall ap', In ap' aps -> ap_open ap' = true -> ap_rssi ap' <= br') /\
        (forall j' ap', (j' < j)%nat -> nth_error aps j' = Some ap' ->
                        ap_open ap' = true -> ap_rssi ap' < br')).
Proof.
  induction aps as [| a rest IH]; intros i bn br s bn' br' s' H.
  - cbn [pick_open] in H. injection H as <- <- _. left.
    split; [reflexivity |]. split; [reflexivity |]. intros ap [].
  - cbn [pick_open] in H.
    destruct (ap_open a && (ap_rssi a >? br)) eqn:C.
    + apply andb_true_iff in C. destruct C as (Ho & Hr).
      rewrite Z.gtb_ltb in Hr. apply Z.ltb_lt in Hr.
      destruct (IH _ _ _ _ _ _ _ H)
        as [(-> & -> & Hall) | (j & ap & Hn & -> & -> & Hop & Hlt & Hall & Hearly)].
      * right. exists 0%nat, a.
        split; [reflexivity |]. split; [lia |]. split; [reflexivity |].
        split; [exact Ho |]. split; [exact Hr |]. split.
        -- intros ap' [<- | Hin] Hopen; [lia | exact (Hall ap' Hin Hopen)].
        -- intros j' ap' Hj. lia.
      * right. exists (S j), ap.
        split; [exact Hn |]. split; [lia |]. split; [reflexivity |].
        split; [exact Hop |]. split; [lia |]. split.
        -- intros ap' [<- | Hin] Hopen; [lia | exact (Hall ap' Hin Hopen)].
        -- intros j' ap' Hj Hn' Hopen. destruct j' as [| j'].
           ++ cbn [nth_error] in Hn'. injection Hn' as <-. lia.
           ++ cbn [nth_error] in Hn'. apply (Hearly j' ap'); [lia | assumption ..].
    + assert (Hweak : ap_open a = true -> ap_rssi a <= br).
      { intros Ho. rewrite Ho in C. cbn [andb] in C.
        rewrite Z.gtb_ltb in C. apply Z.ltb_ge in C. exact C. }
      destruct (IH _ _ _ _ _ _ _ H)
        as [(-> & -> & Hall) | (j & ap & Hn & -> & -> & Hop & Hlt & Hall & Hearly)].
      * left. split; [reflexivity |]. split; [reflexivity |].
        intros ap' [<- | Hin] Hopen; [exact (Hweak Hopen) | exact (Hall ap' Hin Hopen)].
      * right. exists (S j), ap.
        split; [exact Hn |]. split; [lia |]. split; [reflexivity |].
        split; [exact Hop |]. split; [exact Hlt |]. split.
        -- intros ap' [<- | Hin] Hopen;
             [specialize (Hweak Hopen); lia | exact (Hall ap' Hin Hopen)].
        -- intros j' ap' Hj Hn' Hopen. destruct j' as [| j'].
           ++ cbn [nth_error] in Hn'. injection Hn' as <-.
              specialize (Hweak Hopen). lia.
           ++ cbn [nth_error] in Hn'. apply (Hearly j' ap'); [lia | assumption ..].
Qed.

Lemma pick_open_trace (aps : list AccessPoint) :
  forall (i bn br : Z) (s : State),
    trace (snd (pick_open aps i bn br s)) =
    trace s ++ repeat (Delay 10) (length aps).
Proof.
  induction aps as [| a rest IH]; intros i bn br s.
  - cbn. rewrite app_nil_r. reflexivity.
  - cbn [pick_open length repeat].
    destruct (ap_open a && (ap_rssi a >? br)); rewrite IH;
      unfold delay; rewrite trace_emit, <- app_assoc; reflexivity.
Qed.

(** The waiting loop pauses once for every status call that reports no
    association, at most [left] times, and ends at the first call that
    reports one. *)
Lemma wait_connected_spec (status : nat -> bool) (left : nat) :
  forall (poll : nat) (s : State),
    exists n : nat,
      (n <= left)%nat /\
      snd (wait_connected status left poll s) = S (poll + n) /\
      trace (fst (wait_connected status left poll s)) =
        trace s ++ concat (repeat [Delay 500; Print "."] n) /\
      (forall k, (poll <= k < poll + n)%nat -> status k = false) /\
      ((n < left)%nat -> status (poll + n)%nat = true).
Proof.
  induction left as [| left IH]; intros poll s.
  - exists 0%nat. cbn [wait_connected].
    assert (E : snd (if status poll then (s, S poll) else (s, S poll)) = S (poll + 0) /\
                trace (fst (if status poll then (s, S poll) else (s, S poll))) =
                  trace s ++ concat (repeat [Delay 500; Print "."] 0))
      by (destruct (status poll); cbn [fst snd repeat concat];
          rewrite app_nil_r, Nat.add_0_r; split; reflexivity).
    destruct E as (E1 & E2).
    split; [lia |]. split; [exact E1 |]. split; [exact E2 |].
    split; [intros k Hk; lia | intros Hlt; lia].
  - cbn [wait_connected]. destruct (status poll) eqn:E.
    + exists 0%nat. cbn [fst snd repeat concat].
      rewrite app_nil_r, Nat.add_0_r.
      split; [lia |]. split; [reflexivity |]. split; [reflexivity |].
      split; [intros k Hk; lia | intros _; exact E].
    + destruct (IH (S poll) (s |> delay 500 |> Serial_print "."))
        as (n & Hn & Hp & Ht & Hfalse & Htrue).
      exists (S n). rewrite Hp, Ht.
      unfold delay, Serial_print. rewrite !trace_emit.
      cbn [repeat concat]. rewrite <- !app_assoc. cbn [app].
      split; [lia |]. split; [f_equal; lia |]. split; [reflexivity |].
      split.
      * intros k Hk. destruct (Nat.eq_dec k poll) as [-> | Hne]; [exact E |].
        apply Hfalse. lia.
      * intros Hlt. replace (poll + S n)%nat with (S poll + n)%nat by lia.
        apply Htrue. lia.
Qed.

Lemma pauses_of_waiting (n : nat) :
  pauses_of 500 (concat (repeat [Delay 500; Print "."] n)) = n /\
  pauses_of 10 (concat (repeat [Delay 500; Print "."] n)) = 0%nat.
Proof.
  induction n as [| n (IH1 & IH2)]; [split; reflexivity |].
  cbn [repeat concat]. rewrite !pauses_of_app, IH1, IH2. split; reflexivity.
Qed.

Lemma pauses_of_scanning (n : nat) :
  pauses_of 500 (repeat (Delay 10) n) = 0%nat /\
  pauses_of 10 (repeat (Delay 10) n) = n.
Proof.
  induction n as [| n (IH1 & IH2)]; [split; reflexivity |].
  cbn [repeat]. change (Delay 10 :: repeat (Delay 10) n)
    with ([Delay 10] ++ repeat (Delay 10) n).
  rewrite !pauses_of_app, IH1, IH2. split; reflexivity.
Qed.

(** X18: The network joined is an open one whose signal is above -1000 and at
    least as strong as that of every open network found, the first of the
    list among equally strong ones; no network is joined only when no
    open network is above -1000. *)
Theorem strongest_open_network_joined (aps : list AccessPoint)
  (status : nat -> bool) (local : IPAddress) (s : State) :
  match snd (connectToStrongestOpenWifi aps status local s) with
  | Some ssid =>
      exists (j : nat) (ap : AccessPoint),
        nth_error aps j = Some ap /\ ssid = ap_ssid ap /\
        ap_open ap = true /\ -1000 < ap_rssi ap /\
        (forall ap', In ap' aps -> ap_open ap' = true ->
                     ap_rssi ap' <= ap_rssi ap) /\
        (forall j' ap', (j' < j)%nat -> nth_error aps j' = Some ap' ->
                        ap_open ap' = true -> ap_rssi ap' < ap_rssi ap)
  | None =>
      forall ap, In ap aps -> ap_open ap = true -> ap_rssi ap <= -1000
  end.
Proof.
  unfold connectToStrongestOpenWifi. cbv zeta.
  destruct (Z.of_nat (length aps) =? 0) eqn:En.
  { cbn [snd]. apply Z.eqb_eq in En.
    destruct aps; [intros ap [] | cbn [length] in En; lia]. }
  destruct (pick_open aps 0 (-1) (-1000)
              (Serial_println "Scanning for open networks..." s))
    as [[bestNet bestRssi] s1] eqn:Ep.
  destruct (pick_open_spec aps _ _ _ _ _ _ _ Ep)
    as [(-> & -> & Hall) | (j & ap & Hn & -> & -> & Hop & Hlt & Hall & Hearly)].
  - cbn [snd]. exact Hall.
  - replace (0 + Z.of_nat j >=? 0) with true
      by (symmetry; rewrite Z.geb_leb; apply Z.leb_le; lia).
    replace (Z.to_nat (0 + Z.of_nat j)) with j by lia.
    rewrite (nth_error_nth aps j (MkAp "" 0 false) Hn).
    destruct (wait_connected status 20 0 _) as [s2 polls].
    destruct (status polls); cbn [snd];
      exists j, ap; repeat split; assumption.
Qed.

(** X19: Joining a network pauses 10 ms once per network found and 500 ms at
    most twenty times while it waits for the association, so the wait is
    bounded by ten seconds. *)
Theorem wifi_wait_is_bounded (aps : list AccessPoint)
  (status : nat -> bool) (local : IPAddress) (s : State) :
  pauses_of 10 (trace (fst (connectToStrongestOpenWifi aps status local s))) =
    (pauses_of 10 (trace s) + length aps)%nat /\
  (pauses_of 500 (trace (fst (connectToStrongestOpenWifi aps status local s))) <=
   pauses_of 500 (trace s) + 20)%nat.
Proof.
  unfold connectToStrongestOpenWifi. cbv zeta.
  destruct (Z.of_nat (length aps) =? 0) eqn:En.
  { cbn [fst]. apply Z.eqb_eq in En.
    assert (aps = []) as -> by (destruct aps; [reflexivity | cbn [length] in En; lia]).
    unfold Serial_println. rewrite !trace_emit, !pauses_of_app.
    cbn. lia. }
  pose proof (pick_open_trace aps 0 (-1) (-1000)
                (Serial_println "Scanning for open networks..." s)) as Ht.
  destruct (pick_open aps 0 (-1) (-1000)
              (Serial_println "Scanning for open networks..." s))
    as [[bestNet bestRssi] s1].
  cbn [snd] in Ht.
  assert (H10 : pauses_of 10 (trace s1) = (pauses_of 10 (trace s) + length aps)%nat).
  { rewrite Ht. unfold Serial_println. rewrite trace_emit, !pauses_of_app.
    rewrite (proj2 (pauses_of_scanning (length aps))). cbn. lia. }
  assert (H500 : pauses_of 500 (trace s1) = pauses_of 500 (trace s)).
  { rewrite Ht. unfold Serial_println. rewrite trace_emit, !pauses_of_app.
    rewrite (proj1 (pauses_of_scanning (length aps))). cbn. lia. }
  clear Ht. generalize dependent (trace s). intros t0 H10 H500.
  destruct (bestNet >=? 0).
  - match goal with |- context [wait_connected status 20 0 ?st] =>
      destruct (wait_connected_spec status 20 0 st) as (n & Hn & _ & Hw & _);
      destruct (wait_connected status 20 0 st) as [s2 polls]
    end.
    cbn [fst] in Hw.
    unfold Serial_printf in Hw. rewrite trace_emit in Hw.
    destruct (status polls); cbn [fst];
      unfold Serial_println, Serial_print, Serial_println_ip;
      rewrite !trace_emit, Hw, !pauses_of_app;
      rewrite (proj1 (pauses_of_waiting n)), (proj2 (pauses_of_waiting n)),
              H10, H500;
      cbn; lia.
  - cbn [fst]. unfold Serial_println. rewrite trace_emit, !pauses_of_app, H10, H500.
    cbn. lia.
Qed.

Example strongest_open_example :
  snd (connectToStrongestOpenWifi
         [MkAp "Home" (-40) false; MkAp "Cafe" (-70) true;
          MkAp "Guest" (-55) true; MkAp "Lobby" (-55) true]
         (fun k => (3 <=? k)%nat) (MkIp 192 168 4 17) initial_state)
  = Some "Guest"%string.
Proof. vm_compute. reflexivity. Qed.

Example no_open_network_example :
  snd (connectToStrongestOpenWifi
         [MkAp "Home" (-40) false; MkAp "Office" (-60) false]
         (fun _ => true) (MkIp 192 168 4 17) initial_state)
  = None.
Proof. vm_compute. reflexivity. Qed.

(** ** The rotary-knob sketch *)

(** X20: The ten bytes the knob sketch sends for a position are the bytes the
    discovery controller writes, in its three writes, for the volume that
    position stands for. *)
Theorem knob_command_matches_setVolume (k : Z) (s : State)
  (Hk : -190 <= k <= 0) :
  exists ws,
    writes_of client (trace (setVolume (half_dB k) s)) =
      writes_of client (trace s) ++ ws /\
    concat ws = Knob.command (192 + k).
Proof.
  exists [PRE_CMD; VOLUME_CMD_PREFIX; [192 + k]]. split.
  - rewrite setVolume_writes by (apply half_dB_range; exact Hk).
    rewrite Qtrunc_half_dB. reflexivity.
  - unfold Knob.command, to_byte. rewrite Z.mod_small by lia. reflexivity.
Qed.

Lemma knob_command_matches_setVolume_witness :
  exists ws,
    writes_of client (trace (setVolume (half_dB (-20)) ready_state)) =
      writes_of client (trace ready_state) ++ ws /\
    concat ws = Knob.command (192 + -20).
Proof.
  apply (knob_command_matches_setVolume (-20) ready_state). lia.
Defined.

(** A failed connection attempt writes nothing and keeps the stored
    position. *)
Lemma knob_loop_refused (reading : Z) (s : Knob.KnobState) :
  Knob.linked s = false ->
  Knob.linked (Knob.loop reading false s) = false /\
  Knob.knob_position (Knob.loop reading false s) = Knob.knob_position s /\
  writes_of client (Knob.log (Knob.loop reading false s)) =
    writes_of client (Knob.log s) /\
  connects_of client (Knob.log (Knob.loop reading false s)) =
    connects_of client (Knob.log s) ++ [Knob.kHost].
Proof.
  destruct s as [position up input lg]. cbn [Knob.linked]. intros ->.
  cbv [Knob.loop Knob.discard_input Knob.record Knob.linked Knob.knob_position
       Knob.log Knob.pending negb].
  rewrite !writes_of_app, !connects_of_app. cbn [writes_of connects_of].
  rewrite !app_nil_r. repeat split.
Qed.

(** The first loop that connects writes the handshake and the command for
    a position that differs from the stored one. *)
Lemma knob_loop_accepted (reading : Z) (s : Knob.KnobState) :
  Knob.linked s = false -> Knob.knob_position s <> reading ->
  Knob.knob_position (Knob.loop reading true s) = reading /\
  writes_of client (Knob.log (Knob.loop reading true s)) =
    writes_of client (Knob.log s) ++
    [[0x00; 0x00; 0x00; 0x05]; [0x03]; Knob.command reading] /\
  connects_of client (Knob.log (Knob.loop reading true s)) =
    connects_of client (Knob.log s) ++ [Knob.kHost].
Proof.
  destruct s as [position up input lg]. cbn [Knob.linked Knob.knob_position].
  intros -> Hturned.
  cbv [Knob.loop Knob.send_if_turned Knob.discard_input Knob.record Knob.linked
       Knob.knob_position Knob.log Knob.pending].
  replace (position =? reading) with false
    by (symmetry; apply Z.eqb_neq; exact Hturned).
  cbv [negb Knob.knob_position Knob.log].
  rewrite !writes_of_app, !connects_of_app. cbn [writes_of connects_of].
  rewrite !app_nil_r, <- !app_assoc. repeat split.
Qed.

(** X21: A knob turn made while the appliance cannot be reached is not lost:
    every loop that fails to connect leaves the stored position alone and
    writes nothing, and the first loop that connects writes the handshake
    and then the command for the position the knob is at. *)
Theorem knob_turn_sent_after_reconnect (n : nat) (reading : Z)
  (s : Knob.KnobState)
  (Hdown : Knob.linked s = false)
  (Hturned : Knob.knob_position s <> reading) :
  writes_of client
    (Knob.log (Knob.run (repeat (reading, false) n ++ [(reading, true)]) s)) =
    writes_of client (Knob.log s) ++
    [[0x00; 0x00; 0x00; 0x05]; [0x03]; Knob.command reading] /\
  length (connects_of client
            (Knob.log (Knob.run (repeat (reading, false) n ++ [(reading, true)]) s)))
  = (length (connects_of client (Knob.log s)) + n + 1)%nat /\
  Knob.knob_position
    (Knob.run (repeat (reading, false) n ++ [(reading, true)]) s) = reading.
Proof.
  revert s Hdown Hturned. induction n as [| n IH]; intros s Hdown Hturned.
  - cbn [repeat app]. unfold Knob.run. cbn [fold_left fst snd].
    destruct (knob_loop_accepted reading s Hdown Hturned) as (Hp & Hw & Hc).
    rewrite Hp, Hw, Hc, length_app. cbn [length].
    split; [reflexivity |]. split; [lia | reflexivity].
  - cbn [repeat app]. unfold Knob.run. cbn [fold_left fst snd].
    fold (Knob.run (repeat (reading, false) n ++ [(reading, true)])
            (Knob.loop reading false s)).
    destruct (knob_loop_refused reading s Hdown) as (Hl & Hp & Hw & Hc).
    destruct (IH (Knob.loop reading false s) Hl) as (IHw & IHc & IHp);
      [rewrite Hp; exact Hturned |].
    rewrite IHw, IHc, IHp, Hw, Hc, length_app. cbn [length].
    split; [reflexivity |]. split; [lia | reflexivity].
Qed.

Lemma knob_turn_sent_after_reconnect_witness :
  writes_of client
    (Knob.log (Knob.run [(0x50, false); (0x50, false); (0x50, true)]
                 (Knob.MkKnob 0x40 false [] []))) =
    [[0x00; 0x00; 0x00; 0x05]; [0x03]; Knob.command 0x50].
Proof.
  refine (proj1 (knob_turn_sent_after_reconnect 2 0x50
                   (Knob.MkKnob 0x40 false [] []) eq_refl _)).
  discriminate.
Defined.
